(** * heartbeat: liveness state, push loop and health endpoint

    A shallow embedding of the Go package [heartbeat] (the monitor
    with its constructor, the push loop of send.go, the health
    server) and the properties of its construction, liveness
    predicate, push tick, health handler and start-up.

    Conventions of the embedding.
    - A [time.Duration] is an [int64] count of nanoseconds: a [Z] with
      the wrap-around of its arithmetic written out ([wrap64]).
    - A [time.Time] is the instant it denotes, counted in nanoseconds
      from the zero Time (the value of an unset [time.Time] field).
      Wall-clock and monotonic readings are taken to lie on that one
      time line, so [Before] is the order of instants and [Sub] is the
      saturating difference that package [time] documents.
    - A Go [error] is the message it carries.
    - The mutex [mu] makes every method body atomic; a method is one
      transition of the state, and a run of the program is a sequence
      of such transitions.
    - What leaves the process (an outbound GET, a spawned goroutine, a
      call of the error callback) is recorded as an [Event] in a
      trace. *)

From Stdlib Require Import ZArith List String Ascii Bool Lia Permutation.
Import ListNotations.

Open Scope string_scope.
Open Scope Z_scope.

(** ** Package time *)

Module time.

Definition Duration := Z.
Definition Time := Z.

Definition minDuration : Duration := - 2 ^ 63.
Definition maxDuration : Duration := 2 ^ 63 - 1.

Definition Nanosecond : Duration := 1.
Definition Second : Duration := 1000000000.

(** The zero value of a [time.Time] struct field. *)
Definition zeroTime : Time := 0.

Definition is_int64 (d : Z) : Prop := minDuration <= d <= maxDuration.

(** Two's complement reduction of an integer to 64 bits. *)
Definition wrap64 (z : Z) : Z := (z + 2 ^ 63) mod 2 ^ 64 - 2 ^ 63.

(** [d - e] on [int64]. *)
Definition dsub (d e : Duration) : Duration := wrap64 (d - e).

(** [t.Before(u)]. *)
Definition Before (t u : Time) : bool := t <? u.

(** [t.Sub(u)]: the difference, or the nearest representable
    Duration when the difference does not fit. *)
Definition Sub (t u : Time) : Duration :=
  if t - u <? minDuration then minDuration
  else if maxDuration <? t - u then maxDuration
  else t - u.

(** [time.Since(t)] with the clock reading [now]. *)
Definition Since (now t : Time) : Duration := Sub now t.

End time.

(** ** Errors *)

Inductive error : Type :=
| errorString (s : string).

Definition Error (e : error) : string :=
  match e with errorString s => s end.

(** [errors.New]. *)
Definition errors_New (s : string) : error := errorString s.

(** ** Configuration and monitor *)

(** The value of a [func(error)] field: the name of the function it
    holds. A nil field is [None]. *)
Inductive ErrorFunc : Type :=
| errorFunc (name : nat).

Record Config : Type := mkConfig {
  HeartbeatInterval : time.Duration;
  LivenessThreshold : time.Duration;
  HeartbeatURL : string;
  HTTPTimeout : time.Duration;
  Port : Z;
  OnError : option ErrorFunc
}.

(** [http.Client], of which only the timeout is set. *)
Record http_Client : Type := mkClient {
  Timeout : time.Duration
}.

Record heartbeat : Type := mkHeartbeat {
  heartbeatInterval : time.Duration;
  livenessThreshold : time.Duration;
  heartbeatURL : string;
  lastAlive : time.Time;
  client : http_Client;
  onError : option ErrorFunc;
  started : bool;
  serverPort : Z
}.

(** [NewHeartbeat]: the monitor, or the error naming the first
    invalid field. The fields the composite literal leaves out
    ([lastAlive], [started]) take their zero values. *)
Definition NewHeartbeat (cfg : Config) : heartbeat + error :=
  if LivenessThreshold cfg <=? 0 then
    inr (errors_New "liveness threshold must be positive")
  else if HeartbeatInterval cfg <=? 0 then
    inr (errors_New "heartbeat interval must be positive")
  else if negb (HTTPTimeout cfg =? 0)
          && (HeartbeatInterval cfg <=? HTTPTimeout cfg) then
    inr (errors_New "timeout must be less than heartbeat interval")
  else if (Port cfg <? 0) || (65535 <? Port cfg) then
    inr (errors_New "port must be in the range [0, 65535]")
  else if (HeartbeatURL cfg =? EmptyString)%string && (Port cfg =? 0) then
    inr (errors_New "heartbeat URL must be set")
  else
    let timeout := HTTPTimeout cfg in
    let timeout :=
      if timeout =? 0 then
        let timeout := time.dsub (HeartbeatInterval cfg) time.Second in
        if timeout <? time.Second then time.Second else timeout
      else timeout in
    inl {| livenessThreshold := LivenessThreshold cfg;
           heartbeatInterval := HeartbeatInterval cfg;
           heartbeatURL := HeartbeatURL cfg;
           lastAlive := time.zeroTime;
           onError := OnError cfg;
           client := {| Timeout := timeout |};
           started := false;
           serverPort := Port cfg |}.

Definition set_lastAlive (h : heartbeat) (t : time.Time) : heartbeat :=
  {| heartbeatInterval := heartbeatInterval h;
     livenessThreshold := livenessThreshold h;
     heartbeatURL := heartbeatURL h;
     lastAlive := t;
     client := client h;
     onError := onError h;
     started := started h;
     serverPort := serverPort h |}.

Definition set_started (h : heartbeat) (b : bool) : heartbeat :=
  {| heartbeatInterval := heartbeatInterval h;
     livenessThreshold := livenessThreshold h;
     heartbeatURL := heartbeatURL h;
     lastAlive := lastAlive h;
     client := client h;
     onError := onError h;
     started := b;
     serverPort := serverPort h |}.

(** Method [Alive] of [heartbeat]. *)
Definition Alive (h : heartbeat) (at_ : time.Time) : heartbeat :=
  if time.Before (lastAlive h) at_ then set_lastAlive h at_ else h.

(** Method [okUnlocked] of [heartbeat], reading the clock as [now]. *)
Definition okUnlocked (h : heartbeat) (now : time.Time) : bool :=
  time.Since now (lastAlive h) <? livenessThreshold h.

(** A sequence of [Alive] calls, in the order the mutex admits them. *)
Definition reportAll (h : heartbeat) (ts : list time.Time) : heartbeat :=
  fold_left Alive ts h.

(** The latest of a list of instants, [d] for the empty list. *)
Definition latest (d : time.Time) (ts : list time.Time) : time.Time :=
  fold_left Z.max ts d.

(** The largest of a non-empty list of instants. *)
Definition maxOf (ts : list time.Time) : option time.Time :=
  match ts with
  | [] => None
  | t :: ts => Some (latest t ts)
  end.

(** ** What the process does to the outside *)

Inductive Event : Type :=
| NewTicker (d : time.Duration)
| GoHeartbeatLoop
| GoHttpServer (port : Z)
| HttpGet (c : http_Client) (url : string)
| BodyClose
| GoOnError (f : ErrorFunc) (err : error).

Definition is_HttpGet (e : Event) : bool :=
  match e with HttpGet _ _ => true | _ => false end.

Definition is_GoOnError (e : Event) : bool :=
  match e with GoOnError _ _ => true | _ => false end.

Definition is_GoHeartbeatLoop (e : Event) : bool :=
  match e with GoHeartbeatLoop => true | _ => false end.

Definition is_GoHttpServer (e : Event) : bool :=
  match e with GoHttpServer _ => true | _ => false end.

(** The outbound requests, the callback invocations and the launched
    goroutines of a trace. *)
Definition requests (tr : list Event) : list Event := filter is_HttpGet tr.
Definition callbacks (tr : list Event) : list Event := filter is_GoOnError tr.
Definition pushLoops (tr : list Event) : list Event :=
  filter is_GoHeartbeatLoop tr.
Definition listeners (tr : list Event) : list Event :=
  filter is_GoHttpServer tr.

(** ** The push loop (send.go) *)

(** A response body: what [io.ReadAll] returns for it. *)
Record ReadCloser : Type := mkBody {
  content : string;
  readErr : option error
}.

Definition io_ReadAll (b : ReadCloser) : string * option error :=
  (content b, readErr b).

Record http_Response : Type := mkResponse {
  StatusCode : Z;
  Status : string;
  Body : ReadCloser
}.

(** The two results of [client.Get]: a response, or a non-nil error. *)
Definition GetResult : Type := (http_Response + error)%type.

Record uptimeKumaPushResp : Type := mkPushResp {
  OK : bool;
  Msg : string
}.

(** [fmt.Errorf] with the format of send.go, for both verbs used
    there: [%s] of a string and [%v] of an error print the text. *)
Definition failed (url detail : string) : error :=
  errorString ("heartbeat to '" ++ url ++ "' failed: " ++ detail).

(** [sub] occurs in [s]. *)
Definition occursIn (sub s : string) : Prop :=
  exists pre post, s = pre ++ sub ++ post.

(** [if h.onError != nil { go h.onError(err) }]. *)
Definition reportError (h : heartbeat) (err : error) : list Event :=
  match onError h with
  | Some f => [GoOnError f err]
  | None => []
  end.

Section Send.

(** [json.Unmarshal] into a fresh [uptimeKumaPushResp]: the struct
    after the call and the error returned. *)
Variable json_Unmarshal : string -> uptimeKumaPushResp * option error.

(** The part of the loop body after a response with a 2xx status. *)
Definition readAck (h : heartbeat) (resp : http_Response) : list Event :=
  let (bodyBytes, err) := io_ReadAll (Body resp) in
  BodyClose ::
  match err with
  | Some _ => []
  | None =>
      let (ukRespBody, err) := json_Unmarshal bodyBytes in
      let err :=
        match err with
        | None =>
            if negb (OK ukRespBody)
            then Some (failed (heartbeatURL h) (Msg ukRespBody))
            else None
        | Some _ => None
        end in
      match err with
      | Some e => reportError h e
      | None => []
      end
  end.

(** One iteration of [for range ticker.C]: the clock reads [now]
    and [client.Get], if it is called, returns [reply]. *)
Definition heartbeatTick (h : heartbeat) (now : time.Time)
           (reply : GetResult) : list Event :=
  if negb (okUnlocked h now) then []
  else
    HttpGet (client h) (heartbeatURL h) ::
    match reply with
    | inr err =>
        reportError h (failed (heartbeatURL h) (Error err))
    | inl resp =>
        if (StatusCode resp <? 200) || (299 <? StatusCode resp)
        then reportError h (failed (heartbeatURL h) (Status resp))
        else readAck h resp
    end.

(** [startHeartbeatLocked]. *)
Definition startHeartbeatLocked (h : heartbeat) : list Event :=
  if (heartbeatURL h =? EmptyString)%string then []
  else [NewTicker (heartbeatInterval h); GoHeartbeatLoop].

End Send.

(** ** The health server *)

Definition MethodGet : string := "GET".
Definition StatusOK : Z := 200.
Definition StatusMethodNotAllowed : Z := 405.
Definition StatusServiceUnavailable : Z := 503.

Record http_Request : Type := mkRequest {
  Method : string;
  Path : string
}.

(** An [http.ResponseWriter]: the status line sent ([0] while none
    has been) and the bytes written. *)
Record ResponseWriter : Type := mkWriter {
  code : Z;
  body : string
}.

Definition newWriter : ResponseWriter := {| code := 0; body := EmptyString |}.

Definition WriteHeader (w : ResponseWriter) (c : Z) : ResponseWriter :=
  if code w =? 0 then {| code := c; body := body w |} else w.

Definition Write (w : ResponseWriter) (b : string) : ResponseWriter :=
  {| code := if code w =? 0 then StatusOK else code w;
     body := body w ++ b |}.

Definition newline : string := String (ascii_of_nat 10) EmptyString.
Definition dquote : string := String (ascii_of_nat 34) EmptyString.

(** [http.Error]: the status, then the message and a line end. *)
Definition http_Error (w : ResponseWriter) (msg : string) (c : Z)
  : ResponseWriter :=
  Write (WriteHeader w c) (msg ++ newline).

(** The raw string literals of the handler. *)
Definition body_ok : string := "{" ++ dquote ++ "ok" ++ dquote ++ ":true}".
Definition body_not_ok : string :=
  "{" ++ dquote ++ "ok" ++ dquote ++ ":false}".

(** The function registered on the pattern [/]. *)
Definition healthHandler (h : heartbeat) (now : time.Time)
           (w : ResponseWriter) (r : http_Request) : ResponseWriter :=
  if negb (Method r =? MethodGet)%string then
    http_Error w "Method Not Allowed" StatusMethodNotAllowed
  else if okUnlocked h now then
    Write (WriteHeader w StatusOK) body_ok
  else
    Write (WriteHeader w StatusServiceUnavailable) body_not_ok.

(** What net/http does with a request that comes in on the port,
    before any code of the repository runs. The mux of
    [startHttpServerLocked] has the one pattern [/]: it hands a
    request to the registered function, or, when the path is not in
    canonical form (repeated slashes, [.] or [..] elements), answers
    it itself with a redirect to the canonical path; some requests
    the server answers on its own. *)
Inductive Routing : Type :=
| ToHandler
| Redirect (location : string)
| Direct (status : Z).

(** What is sent back for a request. *)
Inductive Served : Type :=
| Handled (w : ResponseWriter)
| Redirected (location : string)
| Answered (status : Z).

(** The server of [startHttpServerLocked]. Which requests reach the
    registered function is decided by net/http and not by the
    repository: [route] stands for that decision. The function runs,
    with a fresh writer, on the requests handed to it. *)
Definition serveHTTP (route : http_Request -> Routing) (h : heartbeat)
           (now : time.Time) (r : http_Request) : Served :=
  match route r with
  | ToHandler => Handled (healthHandler h now newWriter r)
  | Redirect location => Redirected location
  | Direct status => Answered status
  end.

(** [startHttpServerLocked]. *)
Definition startHttpServerLocked (h : heartbeat) : list Event :=
  if serverPort h =? 0 then [] else [GoHttpServer (serverPort h)].

(** ** Start *)

(** Method [Start] of [heartbeat]: the state after the call and what
    the call launched. *)
Definition Start (h : heartbeat) : heartbeat * list Event :=
  if started h then (h, [])
  else
    let h := set_started h true in
    (h, (startHeartbeatLocked h ++ startHttpServerLocked h)%list).

(** [n] calls of [Start] in a row. *)
Fixpoint startTimes (n : nat) (h : heartbeat) : heartbeat * list Event :=
  match n with
  | O => (h, [])
  | S n =>
      let (h1, tr1) := Start h in
      let (h2, tr2) := startTimes n h1 in
      (h2, (tr1 ++ tr2)%list)
  end.

(** ** The running push loop *)

(** What happens to a running loop: its ticker fires, or another
    goroutine gets the mutex for an [Alive] call between two ticks. *)
Inductive LoopInput : Type :=
| Fires (now : time.Time) (reply : GetResult)
| Reported (at_ : time.Time).

Section Loop.

Variable json_Unmarshal : string -> uptimeKumaPushResp * option error.

(** The goroutine of [startHeartbeatLocked] over the inputs it
    meets, with the trace it leaves. *)
Fixpoint heartbeatLoop (h : heartbeat) (ins : list LoopInput)
  : list Event :=
  match ins with
  | [] => []
  | Fires now reply :: ins =>
      (heartbeatTick json_Unmarshal h now reply
         ++ heartbeatLoop h ins)%list
  | Reported at_ :: ins => heartbeatLoop (Alive h at_) ins
  end.

End Loop.

(** ** The listener goroutine *)

Section Listener.

(** [errors.Is(err, http.ErrServerClosed)]. *)
Variable isServerClosed : error -> bool.

(** What the goroutine of [startHttpServerLocked] does once
    [http.ListenAndServe] has returned [err]. *)
Definition serverExit (h : heartbeat) (err : option error) : list Event :=
  match err with
  | Some e => if negb (isServerClosed e) then reportError h e else []
  | None => []
  end.

End Listener.

(** ** The state and the ticks of a loop run *)

(** The monitor after the [Alive] calls among the inputs. *)
Fixpoint loopState (h : heartbeat) (ins : list LoopInput) : heartbeat :=
  match ins with
  | [] => h
  | Fires _ _ :: ins => loopState h ins
  | Reported at_ :: ins => loopState (Alive h at_) ins
  end.

(** How often the ticker fires among the inputs. *)
Fixpoint ticks (ins : list LoopInput) : nat :=
  match ins with
  | [] => O
  | Fires _ _ :: ins => S (ticks ins)
  | Reported _ :: ins => ticks ins
  end.

(** ** The first revision: status check only

    The revision of the monitor kept in the same file as send.go:
    the URL is required, the client timeout is the interval capped at
    [maxHeartbeatTimeout], and the loop looks at the status of the
    response only. *)

Module V1.

Definition maxHeartbeatTimeout : time.Duration := 15 * time.Second.

Record Config : Type := mkConfig {
  HeartbeatInterval : time.Duration;
  LivenessThreshold : time.Duration;
  HeartbeatURL : string;
  OnError : option ErrorFunc
}.

Record heartbeat : Type := mkHeartbeat {
  heartbeatInterval : time.Duration;
  livenessThreshold : time.Duration;
  heartbeatURL : string;
  lastAlive : time.Time;
  client : http_Client;
  onError : option ErrorFunc;
  started : bool
}.

Definition NewHeartbeat (cfg : Config) : heartbeat + error :=
  if LivenessThreshold cfg <=? 0 then
    inr (errors_New "liveness threshold must be positive")
  else if HeartbeatInterval cfg <=? 0 then
    inr (errors_New "heartbeat interval must be positive")
  else if (HeartbeatURL cfg =? EmptyString)%string then
    inr (errors_New "heartbeat URL must be set")
  else
    let clientTimeout := maxHeartbeatTimeout in
    let clientTimeout :=
      if HeartbeatInterval cfg <? maxHeartbeatTimeout
      then HeartbeatInterval cfg else clientTimeout in
    inl {| livenessThreshold := LivenessThreshold cfg;
           heartbeatInterval := HeartbeatInterval cfg;
           heartbeatURL := HeartbeatURL cfg;
           lastAlive := time.zeroTime;
           onError := OnError cfg;
           client := {| Timeout := clientTimeout |};
           started := false |}.

(** [fmt.Errorf] with the format of this revision. *)
Definition failedToSend (url detail : string) : error :=
  errorString ("failed to send heartbeat to '" ++ url ++ "': " ++ detail).

(** One iteration of the loop of [runLocked]. *)
Definition runTick (h : heartbeat) (now : time.Time) (reply : GetResult)
  : list Event :=
  let sendHeartbeat :=
    time.Since now (lastAlive h) <? livenessThreshold h in
  if sendHeartbeat then
    HttpGet (client h) (heartbeatURL h) ::
    let err :=
      match reply with
      | inr err => Some (failedToSend (heartbeatURL h) (Error err))
      | inl resp =>
          if (StatusCode resp <? 200) || (299 <? StatusCode resp)
          then Some (failedToSend (heartbeatURL h) (Status resp))
          else None
      end in
    match err, onError h with
    | Some e, Some f => [GoOnError f e]
    | _, _ => []
    end
  else [].

End V1.

(** ** The second revision: the shared default client

    The revision that reads the acknowledgement for the first time.
    Its constructor takes [http.DefaultClient], a pointer to the one
    client of the process, and sets the timeout on it; its loop
    leaves the error branch only when a callback is set. *)

Module V2.

Definition maxHeartbeatTimeout : time.Duration := 15 * time.Second.

Record Config : Type := mkConfig {
  HeartbeatInterval : time.Duration;
  LivenessThreshold : time.Duration;
  HeartbeatURL : string;
  OnError : option ErrorFunc
}.

(** A [*http.Client]: in this revision always [http.DefaultClient]. *)
Inductive ClientPtr : Type :=
| DefaultClientPtr.

Record heartbeat : Type := mkHeartbeat {
  heartbeatInterval : time.Duration;
  livenessThreshold : time.Duration;
  heartbeatURL : string;
  lastAlive : time.Time;
  client : ClientPtr;
  onError : option ErrorFunc;
  started : bool
}.

(** The client a pointer leads to, [DefaultClient] being the value
    the process holds at that moment. *)
Definition deref (DefaultClient : http_Client) (p : ClientPtr)
  : http_Client :=
  match p with DefaultClientPtr => DefaultClient end.

(** [NewHeartbeat], with the default client of the process before
    the call and after it. *)
Definition NewHeartbeat (DefaultClient : http_Client) (cfg : Config)
  : (heartbeat + error) * http_Client :=
  if LivenessThreshold cfg <=? 0 then
    (inr (errors_New "liveness threshold must be positive"), DefaultClient)
  else if HeartbeatInterval cfg <=? 0 then
    (inr (errors_New "heartbeat interval must be positive"), DefaultClient)
  else if (HeartbeatURL cfg =? EmptyString)%string then
    (inr (errors_New "heartbeat URL must be set"), DefaultClient)
  else
    let clientTimeout := maxHeartbeatTimeout in
    let clientTimeout :=
      if HeartbeatInterval cfg <? maxHeartbeatTimeout
      then HeartbeatInterval cfg else clientTimeout in
    let client := DefaultClientPtr in
    let DefaultClient := {| Timeout := clientTimeout |} in
    (inl {| livenessThreshold := LivenessThreshold cfg;
            heartbeatInterval := HeartbeatInterval cfg;
            heartbeatURL := HeartbeatURL cfg;
            lastAlive := time.zeroTime;
            onError := OnError cfg;
            client := client;
            started := false |},
     DefaultClient).

(** How an iteration of the loop ends: at the end of its body, or in
    the nil dereference of [resp.Body] that stops the process. *)
Inductive Outcome : Type :=
| Ran (tr : list Event)
| Panicked (tr : list Event).

Section Run.

Variable json_Unmarshal : string -> uptimeKumaPushResp * option error.

(** One iteration of the loop of [runLocked]. A reply that is an
    error comes with a nil response, as the errors of [client.Get]
    do when no connection was made or no answer came in time. *)
Definition runTick (DefaultClient : http_Client) (h : heartbeat)
           (now : time.Time) (reply : GetResult) : Outcome :=
  let sendHeartbeat :=
    time.Since now (lastAlive h) <? livenessThreshold h in
  if sendHeartbeat then
    let get := HttpGet (deref DefaultClient (client h)) (heartbeatURL h) in
    let err :=
      match reply with
      | inr err => Some (failed (heartbeatURL h) (Error err))
      | inl resp =>
          if (StatusCode resp <? 200) || (299 <? StatusCode resp)
          then Some (failed (heartbeatURL h) (Status resp))
          else None
      end in
    match err, onError h with
    | Some e, Some f => Ran [get; GoOnError f e]
    | _, _ =>
        match reply with
        | inr _ => Panicked [get]
        | inl resp =>
            let (bodyBytes, err) := io_ReadAll (Body resp) in
            match err with
            | Some _ => Ran [get; BodyClose]
            | None =>
                let (ukRespBody, err) := json_Unmarshal bodyBytes in
                let err :=
                  match err with
                  | None =>
                      if negb (OK ukRespBody)
                      then Some (failed (heartbeatURL h) (Msg ukRespBody))
                      else None
                  | Some _ => None
                  end in
                match err, onError h with
                | Some e, Some f => Ran [get; BodyClose; GoOnError f e]
                | _, _ => Ran [get; BodyClose]
                end
            end
        end
    end
  else Ran [].

End Run.

End V2.

(** The monitor of the current revision with the settings of a
    monitor of the second one: the client the pointer leads to, and
    no port. *)
Definition ofV2 (DefaultClient : http_Client) (h : V2.heartbeat)
  : heartbeat :=
  {| heartbeatInterval := V2.heartbeatInterval h;
     livenessThreshold := V2.livenessThreshold h;
     heartbeatURL := V2.heartbeatURL h;
     lastAlive := V2.lastAlive h;
     client := V2.deref DefaultClient (V2.client h);
     onError := V2.onError h;
     started := V2.started h;
     serverPort := 0 |}.

(** ** Sample values *)

Definition sampleURL : string :=
  "https://uptimekuma.example.com:9001/api/push/1234abcd".

Definition sampleConfig : Config :=
  {| HeartbeatInterval := 30 * time.Second;
     LivenessThreshold := 60 * time.Second;
     HeartbeatURL := sampleURL;
     HTTPTimeout := 0;
     Port := 8080;
     OnError := Some (errorFunc 1) |}.

Definition sampleMonitor : heartbeat :=
  {| heartbeatInterval := 30 * time.Second;
     livenessThreshold := 60 * time.Second;
     heartbeatURL := sampleURL;
     lastAlive := time.zeroTime;
     client := {| Timeout := 29 * time.Second |};
     onError := Some (errorFunc 1);
     started := false;
     serverPort := 8080 |}.

Definition idleConfig : Config :=
  {| HeartbeatInterval := 30 * time.Second;
     LivenessThreshold := 60 * time.Second;
     HeartbeatURL := EmptyString;
     HTTPTimeout := 0;
     Port := 0;
     OnError := None |}.

Definition slowConfig : Config :=
  {| HeartbeatInterval := 30 * time.Second;
     LivenessThreshold := 60 * time.Second;
     HeartbeatURL := sampleURL;
     HTTPTimeout := 30 * time.Second;
     Port := 0;
     OnError := None |}.

Definition fastConfig : Config :=
  {| HeartbeatInterval := time.Second + 500000000;
     LivenessThreshold := 60 * time.Second;
     HeartbeatURL := EmptyString;
     HTTPTimeout := 0;
     Port := 8080;
     OnError := None |}.

Definition explicitConfig : Config :=
  {| HeartbeatInterval := 30 * time.Second;
     LivenessThreshold := 60 * time.Second;
     HeartbeatURL := EmptyString;
     HTTPTimeout := 5 * time.Second;
     Port := 8080;
     OnError := None |}.

(** A negative acknowledgement: [ok] false, [msg] the word bad. *)
Definition body_bad : string :=
  "{" ++ dquote ++ "ok" ++ dquote ++ ":false,"
      ++ dquote ++ "msg" ++ dquote ++ ":" ++ dquote ++ "bad" ++ dquote ++ "}".

(** A stand-in for [json.Unmarshal] on the bodies of the examples:
    the two acknowledgements decode, anything else is a syntax error
    that leaves the struct at its zero value. *)
Definition sampleUnmarshal (data : string)
  : uptimeKumaPushResp * option error :=
  if (data =? body_bad)%string then
    ({| OK := false; Msg := "bad" |}, None)
  else if (data =? body_ok)%string then
    ({| OK := true; Msg := EmptyString |}, None)
  else
    ({| OK := false; Msg := EmptyString |},
     Some (errors_New "invalid character looking for beginning of value")).

Definition liveMonitor : heartbeat :=
  Alive sampleMonitor (1000 * time.Second).

Definition reply200 (b : ReadCloser) : http_Response :=
  {| StatusCode := 200; Status := "200 OK"; Body := b |}.

(** The port of the specification's example, above the range. *)
Definition farPortConfig : Config :=
  {| HeartbeatInterval := 30 * time.Second;
     LivenessThreshold := 60 * time.Second;
     HeartbeatURL := sampleURL;
     HTTPTimeout := 0;
     Port := 70000;
     OnError := None |}.

(** An interval of half a second, no timeout set. *)
Definition quickConfig : Config :=
  {| HeartbeatInterval := 500000000;
     LivenessThreshold := 60 * time.Second;
     HeartbeatURL := sampleURL;
     HTTPTimeout := 0;
     Port := 0;
     OnError := None |}.

Definition quickMonitor : heartbeat :=
  {| heartbeatInterval := 500000000;
     livenessThreshold := 60 * time.Second;
     heartbeatURL := sampleURL;
     lastAlive := time.zeroTime;
     client := {| Timeout := time.Second |};
     onError := None;
     started := false;
     serverPort := 0 |}.

(** The input is a tick at clock [now0] or later. *)
Definition firesFrom (now0 : time.Time) (i : LoopInput) : Prop :=
  match i with
  | Fires now _ => now0 <= now
  | Reported _ => False
  end.

(** The text every error of the loop starts with. *)
Definition failedPrefix (url : string) : string :=
  "heartbeat to '" ++ url ++ "' failed: ".

(** [s] starts with [pre]. *)
Definition startsWith (pre s : string) : Prop :=
  exists rest, s = pre ++ rest.

(** The callback of the monitor is started with an error that begins
    with the prefix of the loop. *)
Definition wellFormedCallback (h : heartbeat) (e : Event) : Prop :=
  match e with
  | GoOnError f err =>
      onError h = Some f
      /\ startsWith (failedPrefix (heartbeatURL h)) (Error err)
  | _ => True
  end.

(** The request goes to the URL of the monitor through its client. *)
Definition ownRequest (h : heartbeat) (e : Event) : Prop :=
  match e with
  | HttpGet c url => c = client h /\ url = heartbeatURL h
  | _ => True
  end.

Definition reply404 : http_Response :=
  {| StatusCode := 404; Status := "404 Not Found";
     Body := {| content := body_bad; readErr := None |} |}.

(** The reply to a push is one the loop reports: a transport error,
    a status outside 200..299, or a readable body that decodes to an
    acknowledgement with [OK] false. *)
Definition rejected
           (json_Unmarshal : string -> uptimeKumaPushResp * option error)
           (reply : GetResult) : Prop :=
  match reply with
  | inr _ => True
  | inl resp =>
      (StatusCode resp < 200 \/ 299 < StatusCode resp)
      \/ (readErr (Body resp) = None
          /\ exists ack,
               json_Unmarshal (content (Body resp)) = (ack, None)
               /\ OK ack = false)
  end.

(** Two configurations of the second revision: a push every five
    seconds, and one every thirty. *)
Definition v2Fast : V2.Config :=
  {| V2.HeartbeatInterval := 5 * time.Second;
     V2.LivenessThreshold := 60 * time.Second;
     V2.HeartbeatURL := sampleURL;
     V2.OnError := None |}.

Definition v2Slow : V2.Config :=
  {| V2.HeartbeatInterval := 30 * time.Second;
     V2.LivenessThreshold := 60 * time.Second;
     V2.HeartbeatURL := sampleURL;
     V2.OnError := Some (errorFunc 1) |}.

Definition v2Monitor (cfg : V2.Config) (lastAlive : time.Time)
  : V2.heartbeat :=
  {| V2.heartbeatInterval := V2.HeartbeatInterval cfg;
     V2.livenessThreshold := V2.LivenessThreshold cfg;
     V2.heartbeatURL := V2.HeartbeatURL cfg;
     V2.lastAlive := lastAlive;
     V2.client := V2.DefaultClientPtr;
     V2.onError := V2.OnError cfg;
     V2.started := false |}.

(** The default client of a process that has not touched it: no
    timeout. *)
Definition untouchedClient : http_Client := {| Timeout := 0 |}.

Definition v1Config : V1.Config :=
  {| V1.HeartbeatInterval := 30 * time.Second;
     V1.LivenessThreshold := 60 * time.Second;
     V1.HeartbeatURL := sampleURL;
     V1.OnError := Some (errorFunc 1) |}.

Definition v1Monitor : V1.heartbeat :=
  {| V1.heartbeatInterval := 30 * time.Second;
     V1.livenessThreshold := 60 * time.Second;
     V1.heartbeatURL := sampleURL;
     V1.lastAlive := 1000 * time.Second;
     V1.client := {| Timeout := 15 * time.Second |};
     V1.onError := Some (errorFunc 1);
     V1.started := false |}.

(** The routing of net/http on the requests of the examples: the
    path [//healthz] is redirected to [/healthz]; the paths [/] and
    [/healthz], in canonical form, go to the handler. *)
Definition sampleRoute (r : http_Request) : Routing :=
  if (Path r =? "//healthz")%string then Redirect "/healthz"
  else ToHandler.

(** * Properties *)

Example sampleMonitor_constructed :
  NewHeartbeat sampleConfig = inl sampleMonitor.
Proof. reflexivity. Qed.

(** ** Reports *)

Lemma Alive_lastAlive (h : heartbeat) (at_ : time.Time) :
  lastAlive (Alive h at_) = Z.max (lastAlive h) at_.
Proof.
  unfold Alive, time.Before.
  destruct (Z.ltb_spec (lastAlive h) at_); simpl; lia.
Qed.

Lemma reportAll_lastAlive (ts : list time.Time) :
  forall h, lastAlive (reportAll h ts) = latest (lastAlive h) ts.
Proof.
  unfold reportAll, latest.
  induction ts as [| t ts IH]; intros h; simpl.
  - reflexivity.
  - rewrite IH, Alive_lastAlive. reflexivity.
Qed.

Lemma latest_lower (ts : list time.Time) :
  forall d, d <= latest d ts.
Proof.
  unfold latest.
  induction ts as [| t ts IH]; intros d; simpl.
  - lia.
  - specialize (IH (Z.max d t)). lia.
Qed.

Lemma latest_max (ts : list time.Time) :
  forall d e, latest (Z.max d e) ts = Z.max d (latest e ts).
Proof.
  unfold latest.
  induction ts as [| t ts IH]; intros d e; simpl.
  - reflexivity.
  - rewrite <- IH. f_equal. lia.
Qed.

Lemma latest_Permutation (ts ts' : list time.Time) :
  Permutation ts ts' -> forall d, latest d ts = latest d ts'.
Proof.
  unfold latest.
  induction 1 as [| t l l' _ IH | s t l | l l' l'' _ IH1 _ IH2];
    intros d; simpl.
  - reflexivity.
  - apply IH.
  - f_equal. lia.
  - rewrite IH1. apply IH2.
Qed.

Lemma latest_absorbs (ts : list time.Time) (d : time.Time) :
  (exists t, In t ts /\ d <= t) -> Some (latest d ts) = maxOf ts.
Proof.
  intros [t [Hin Hle]].
  destruct ts as [| t0 ts]; [destruct Hin |].
  simpl. f_equal.
  change (latest (Z.max d t0) ts = latest t0 ts).
  rewrite latest_max.
  destruct Hin as [-> | Hin].
  - pose proof (latest_lower ts t). lia.
  - assert (Hs : t <= latest t0 ts).
    { clear Hle. revert t0. induction ts as [| s ts IH]; intros t0.
      - destruct Hin.
      - change (t <= latest (Z.max t0 s) ts).
        destruct Hin as [-> | Hin].
        + rewrite Z.max_comm, latest_max.
          lia.
        + apply IH. exact Hin. }
    lia.
Qed.

(** C1, as the code has it. A sequence of [Alive] calls, in whatever
    order the mutex admits them, leaves [lastAlive] at the largest of
    its value before the calls and the reported instants; that is the
    largest reported instant as soon as one report is not before the
    value [lastAlive] had (the zero Time for a fresh monitor). Each
    single call sets [lastAlive] to [max lastAlive at], touches no
    other field and never moves [lastAlive] backwards; [Alive] is a
    total function without an error result. *)
Theorem Alive_keeps_latest (h : heartbeat) (ts : list time.Time) :
  lastAlive (reportAll h ts) = latest (lastAlive h) ts
  /\ (forall ts', Permutation ts ts' ->
        lastAlive (reportAll h ts') = lastAlive (reportAll h ts))
  /\ ((exists t, In t ts /\ lastAlive h <= t) ->
        Some (lastAlive (reportAll h ts)) = maxOf ts)
  /\ (forall at_,
        lastAlive (Alive h at_) = Z.max (lastAlive h) at_
        /\ lastAlive h <= lastAlive (Alive h at_)
        /\ Alive h at_ = set_lastAlive h (Z.max (lastAlive h) at_))
  /\ lastAlive h <= lastAlive (reportAll h ts).
Proof.
  repeat split.
  - apply reportAll_lastAlive.
  - intros ts' HP. rewrite !reportAll_lastAlive.
    symmetry. apply latest_Permutation. exact HP.
  - intros Hex. rewrite reportAll_lastAlive.
    apply latest_absorbs. exact Hex.
  - apply Alive_lastAlive.
  - rewrite Alive_lastAlive. lia.
  - unfold Alive, time.Before.
    destruct (Z.ltb_spec (lastAlive h) at_).
    + rewrite Z.max_r by lia. reflexivity.
    + rewrite Z.max_l by lia. destruct h; reflexivity.
  - rewrite reportAll_lastAlive. apply latest_lower.
Qed.

(** Three reports out of order on the sample monitor. *)
Lemma Alive_keeps_latest_witness :
  Some (lastAlive (reportAll sampleMonitor [20; 50; 30])) = maxOf [20; 50; 30]
  /\ lastAlive (reportAll sampleMonitor [50; 30; 20])
     = lastAlive (reportAll sampleMonitor [20; 50; 30]).
Proof.
  destruct (Alive_keeps_latest sampleMonitor [20; 50; 30])
    as [_ [Hperm [Hmax _]]].
  split.
  - apply Hmax. exists 50. split; [simpl; auto |].
    unfold sampleMonitor, time.zeroTime; simpl; lia.
  - apply Hperm.
    apply (Permutation_cons_app [50; 30] [] 20).
    apply Permutation_refl.
Defined.

(** C1 as the specification words it (the stored instant equals the
    largest reported one) fails on a fresh monitor whose only report
    lies before the zero Time. The instant [-1] is the value of
    [time.Time{}.Add(-1)], one nanosecond before the zero Time:
    [lastAlive.Before(at)] is false for it, the report is dropped,
    and the stored instant stays the zero Time. *)
Lemma Alive_latest_counterexample :
  NewHeartbeat sampleConfig = inl sampleMonitor
  /\ maxOf [-1] = Some (-1)
  /\ lastAlive (reportAll sampleMonitor [-1]) = time.zeroTime
  /\ Some (lastAlive (reportAll sampleMonitor [-1])) <> maxOf [-1].
Proof.
  repeat split; try reflexivity.
  simpl. discriminate.
Qed.

(** ** The liveness predicate *)

(** Puts the bounds of [int64] in front of [lia] as numerals. *)
Ltac int64_bounds :=
  unfold time.is_int64, time.minDuration, time.maxDuration, time.Second in *;
  change (2 ^ 63) with 9223372036854775808 in *;
  change (2 ^ 64) with 18446744073709551616 in *.

Lemma Sub_spec (t u : time.Time) :
  (time.minDuration <= t - u <= time.maxDuration -> time.Sub t u = t - u)
  /\ (t - u < time.minDuration -> time.Sub t u = time.minDuration)
  /\ (time.maxDuration < t - u -> time.Sub t u = time.maxDuration).
Proof.
  unfold time.Sub.
  destruct (Z.ltb_spec (t - u) time.minDuration);
    destruct (Z.ltb_spec time.maxDuration (t - u));
    int64_bounds; repeat split; intros; lia.
Qed.

Lemma okUnlocked_spec (h : heartbeat) (now : time.Time) :
  time.minDuration < livenessThreshold h <= time.maxDuration ->
  okUnlocked h now = true <-> now - lastAlive h < livenessThreshold h.
Proof.
  intros HD.
  unfold okUnlocked, time.Since.
  destruct (Sub_spec now (lastAlive h)) as [Hin [Hlo Hhi]].
  rewrite Z.ltb_lt.
  destruct (Z_lt_le_dec (now - lastAlive h) time.minDuration) as [Hl | Hl].
  - rewrite (Hlo Hl). lia.
  - destruct (Z_lt_le_dec time.maxDuration (now - lastAlive h)) as [Hg | Hg].
    + rewrite (Hhi Hg). lia.
    + rewrite (Hin (conj Hl Hg)). lia.
Qed.

(** C2. With a last report at [T] and a threshold [D] (positive and a
    Duration, as construction leaves it), a read at clock [now]
    answers alive exactly when [now - T < D]: alive at every [now] in
    [T, T+D), not alive at every [now >= T+D]. The answer is a
    function of the state and the clock reading alone. *)
Theorem okUnlocked_window (h : heartbeat) (T : time.Time)
        (D : time.Duration) (now : time.Time) :
  lastAlive h = T ->
  livenessThreshold h = D ->
  0 < D <= time.maxDuration ->
  (okUnlocked h now = true <-> now - T < D)
  /\ (T <= now < T + D -> okUnlocked h now = true)
  /\ (T + D <= now -> okUnlocked h now = false).
Proof.
  intros HT HD Hpos.
  assert (Hspec : okUnlocked h now = true <-> now - T < D).
  { rewrite <- HT, <- HD. apply okUnlocked_spec.
    rewrite HD. int64_bounds. lia. }
  split; [exact Hspec |]. split.
  - intros Hw. apply Hspec. lia.
  - intros Hw. destruct (okUnlocked h now) eqn:E; [| reflexivity].
    assert (now - T < D) by (apply Hspec; reflexivity). lia.
Qed.

(** A threshold of 60 s and a report at second 1000: alive one
    nanosecond before second 1060, not alive at second 1060. *)
Lemma okUnlocked_window_witness :
  okUnlocked (Alive sampleMonitor (1000 * time.Second))
             (1060 * time.Second - 1) = true
  /\ okUnlocked (Alive sampleMonitor (1000 * time.Second))
                (1060 * time.Second) = false.
Proof.
  split.
  - apply (okUnlocked_window (Alive sampleMonitor (1000 * time.Second))
             (1000 * time.Second) (60 * time.Second)
             (1060 * time.Second - 1));
      [reflexivity | reflexivity | vm_compute; split; congruence
      | vm_compute; split; congruence].
  - apply (okUnlocked_window (Alive sampleMonitor (1000 * time.Second))
             (1000 * time.Second) (60 * time.Second)
             (1060 * time.Second));
      [reflexivity | reflexivity | vm_compute; split; congruence
      | vm_compute; congruence].
Defined.

(** A monitor that [NewHeartbeat] returns has a positive threshold
    and the zero Time as its last report, so it is not alive once
    the clock is a threshold past the zero Time. *)
Lemma fresh_not_alive (cfg : Config) (h : heartbeat) (now : time.Time) :
  time.is_int64 (LivenessThreshold cfg) ->
  NewHeartbeat cfg = inl h ->
  lastAlive h = time.zeroTime
  /\ 0 < livenessThreshold h <= time.maxDuration
  /\ (livenessThreshold h <= now -> okUnlocked h now = false).
Proof.
  intros Hr Hnew. unfold NewHeartbeat in Hnew.
  destruct (Z.leb_spec (LivenessThreshold cfg) 0); [discriminate |].
  repeat match type of Hnew with
         | (if ?c then _ else _) = _ => destruct c; [discriminate |]
         end.
  injection Hnew as <-.
  split; [reflexivity |]. split; [simpl; int64_bounds; lia |].
  intros Hle.
  match goal with
  | |- okUnlocked ?m now = false =>
      destruct (okUnlocked m now) eqn:E; [| reflexivity];
      apply (okUnlocked_spec m now) in E
  end; simpl in *; unfold time.zeroTime in *; int64_bounds; lia.
Qed.

(** ** Construction *)

(** C6. A configuration with neither a heartbeat URL nor a port is
    refused: [NewHeartbeat] returns an error and no monitor. *)
Theorem NewHeartbeat_nothing_to_do (cfg : Config) :
  HeartbeatURL cfg = EmptyString ->
  Port cfg = 0 ->
  (exists err, NewHeartbeat cfg = inr err)
  /\ (forall h, NewHeartbeat cfg <> inl h).
Proof.
  intros HU HP.
  assert (H : exists err, NewHeartbeat cfg = inr err).
  { unfold NewHeartbeat. rewrite HU, HP. simpl.
    repeat match goal with
           | |- exists _, (if ?c then _ else _) = _ =>
               destruct c; [eexists; reflexivity |]
           end.
    eexists; reflexivity. }
  split; [exact H |].
  destruct H as [err Herr]. intros h. rewrite Herr. discriminate.
Qed.

(** An otherwise valid configuration without URL and port gets the
    error of the last check. *)
Lemma NewHeartbeat_nothing_to_do_witness :
  (exists err, NewHeartbeat idleConfig = inr err)
  /\ NewHeartbeat idleConfig = inr (errors_New "heartbeat URL must be set").
Proof.
  split.
  - apply (NewHeartbeat_nothing_to_do idleConfig); reflexivity.
  - reflexivity.
Defined.

(** C7. A configuration whose [HTTPTimeout] is set and not below
    [HeartbeatInterval] is refused; hence a monitor that was
    constructed with a set [HTTPTimeout] has it strictly below
    [HeartbeatInterval]. *)
Theorem NewHeartbeat_timeout_too_long (cfg : Config) :
  (HTTPTimeout cfg <> 0 ->
   HeartbeatInterval cfg <= HTTPTimeout cfg ->
   (exists err, NewHeartbeat cfg = inr err)
   /\ (0 < LivenessThreshold cfg -> 0 < HeartbeatInterval cfg ->
       NewHeartbeat cfg
       = inr (errors_New "timeout must be less than heartbeat interval")))
  /\ (forall h, NewHeartbeat cfg = inl h ->
      HTTPTimeout cfg <> 0 ->
      HTTPTimeout cfg < HeartbeatInterval cfg).
Proof.
  unfold NewHeartbeat.
  destruct (Z.leb_spec (LivenessThreshold cfg) 0) as [HL | HL].
  { split; [intros; split; [eexists; reflexivity | lia] | discriminate]. }
  destruct (Z.leb_spec (HeartbeatInterval cfg) 0) as [HI | HI].
  { split; [intros; split; [eexists; reflexivity | lia] | discriminate]. }
  destruct (Z.eqb_spec (HTTPTimeout cfg) 0) as [HT | HT];
    destruct (Z.leb_spec (HeartbeatInterval cfg) (HTTPTimeout cfg))
    as [HG | HG]; simpl.
  - split; [intros; contradiction | intros; contradiction].
  - split; [intros; contradiction | intros; contradiction].
  - split; [intros; split; [eexists |]; reflexivity | discriminate].
  - split; [intros; lia | intros; lia].
Qed.

(** A timeout equal to the interval is already too long. *)
Lemma NewHeartbeat_timeout_too_long_witness :
  NewHeartbeat slowConfig
  = inr (errors_New "timeout must be less than heartbeat interval").
Proof.
  destruct (NewHeartbeat_timeout_too_long slowConfig) as [Hrefused _].
  apply Hrefused; vm_compute; congruence.
Defined.

Lemma wrap64_small (z : Z) : time.is_int64 z -> time.wrap64 z = z.
Proof.
  intros Hz. unfold time.wrap64. int64_bounds.
  rewrite Z.mod_small by lia. lia.
Qed.

(** C8. For a configuration that [NewHeartbeat] accepts (its
    interval being a Duration), the timeout of the HTTP client is
    [max (HeartbeatInterval - 1s) 1s] when [HTTPTimeout] is zero and
    the configured [HTTPTimeout] otherwise. *)
Theorem NewHeartbeat_timeout (cfg : Config) (h : heartbeat) :
  time.is_int64 (HeartbeatInterval cfg) ->
  NewHeartbeat cfg = inl h ->
  (HTTPTimeout cfg = 0 ->
   Timeout (client h)
   = Z.max (HeartbeatInterval cfg - time.Second) time.Second)
  /\ (HTTPTimeout cfg <> 0 -> Timeout (client h) = HTTPTimeout cfg).
Proof.
  intros Hr Hnew. unfold NewHeartbeat in Hnew.
  destruct (LivenessThreshold cfg <=? 0); [discriminate |].
  destruct (Z.leb_spec (HeartbeatInterval cfg) 0) as [HI | HI];
    [discriminate |].
  repeat match type of Hnew with
         | (if ?c then _ else _) = inl _ => destruct c; [discriminate |]
         end.
  injection Hnew as <-. simpl.
  destruct (Z.eqb_spec (HTTPTimeout cfg) 0) as [HT | HT].
  - split; [intros _ | intros; contradiction].
    unfold time.dsub. rewrite wrap64_small by (int64_bounds; lia).
    destruct (Z.ltb_spec (HeartbeatInterval cfg - time.Second) time.Second);
      lia.
  - split; [intros; contradiction | reflexivity].
Qed.

(** An interval of 30 s with no timeout set gives a client timeout
    of 29 s. *)
Lemma NewHeartbeat_timeout_witness :
  Timeout (client sampleMonitor) = 29 * time.Second.
Proof.
  destruct (NewHeartbeat_timeout sampleConfig sampleMonitor) as [Hdef _];
    [vm_compute; split; congruence | reflexivity |].
  rewrite Hdef; reflexivity.
Defined.

(** An interval of 1.5 s: the default is held at 1 s. *)
Example NewHeartbeat_timeout_floor :
  NewHeartbeat fastConfig
  = inl {| heartbeatInterval := time.Second + 500000000;
           livenessThreshold := 60 * time.Second;
           heartbeatURL := EmptyString;
           lastAlive := time.zeroTime;
           client := {| Timeout := time.Second |};
           onError := None;
           started := false;
           serverPort := 8080 |}.
Proof. reflexivity. Qed.

(** A timeout of 5 s below an interval of 30 s is kept. *)
Example NewHeartbeat_timeout_set :
  NewHeartbeat explicitConfig
  = inl {| heartbeatInterval := 30 * time.Second;
           livenessThreshold := 60 * time.Second;
           heartbeatURL := EmptyString;
           lastAlive := time.zeroTime;
           client := {| Timeout := 5 * time.Second |};
           onError := None;
           started := false;
           serverPort := 8080 |}.
Proof. reflexivity. Qed.

(** ** The push tick *)

Lemma append_nil_r (s : string) : s ++ EmptyString = s.
Proof.
  induction s as [| c s IH]; simpl; [reflexivity | rewrite IH; reflexivity].
Qed.

Lemma append_assoc (s1 s2 s3 : string) : (s1 ++ s2) ++ s3 = s1 ++ s2 ++ s3.
Proof.
  induction s1 as [| c s1 IH]; simpl; [reflexivity | rewrite IH; reflexivity].
Qed.

Lemma failed_mentions (url detail : string) :
  occursIn detail (Error (failed url detail)).
Proof.
  exists ("heartbeat to '" ++ url ++ "' failed: "), EmptyString.
  unfold failed, Error.
  rewrite append_nil_r, !append_assoc. reflexivity.
Qed.

Lemma tick_2xx
      (json_Unmarshal : string -> uptimeKumaPushResp * option error)
      (h : heartbeat) (now : time.Time) (resp : http_Response) :
  okUnlocked h now = true ->
  200 <= StatusCode resp <= 299 ->
  heartbeatTick json_Unmarshal h now (inl resp)
  = HttpGet (client h) (heartbeatURL h) :: readAck json_Unmarshal h resp.
Proof.
  intros Hok Hst. unfold heartbeatTick. rewrite Hok. simpl.
  destruct (Z.ltb_spec (StatusCode resp) 200); [lia |].
  destruct (Z.ltb_spec 299 (StatusCode resp)); [lia |].
  reflexivity.
Qed.

(** C3. On a tick of a live monitor whose GET is answered with a 2xx
    status and a readable body: when the body decodes without error
    to an acknowledgement with [OK] false, the callback (if the
    monitor has one) is started exactly once, with an error whose
    text contains the acknowledgement's [Msg]; when it decodes with
    [OK] true, or does not decode, no callback is started. *)
Theorem tick_acknowledgement
        (json_Unmarshal : string -> uptimeKumaPushResp * option error)
        (h : heartbeat) (now : time.Time) (resp : http_Response) :
  okUnlocked h now = true ->
  200 <= StatusCode resp <= 299 ->
  readErr (Body resp) = None ->
  let tr := heartbeatTick json_Unmarshal h now (inl resp) in
  (forall ack,
      json_Unmarshal (content (Body resp)) = (ack, None) ->
      OK ack = false ->
      (forall f, onError h = Some f ->
         callbacks tr = [GoOnError f (failed (heartbeatURL h) (Msg ack))]
         /\ occursIn (Msg ack) (Error (failed (heartbeatURL h) (Msg ack))))
      /\ (onError h = None -> callbacks tr = []))
  /\ (forall ack,
        json_Unmarshal (content (Body resp)) = (ack, None) ->
        OK ack = true ->
        callbacks tr = [])
  /\ (forall ack err,
        json_Unmarshal (content (Body resp)) = (ack, Some err) ->
        callbacks tr = []).
Proof.
  intros Hok Hst Hread tr. subst tr.
  rewrite (tick_2xx json_Unmarshal h now resp Hok Hst).
  unfold readAck, io_ReadAll. rewrite Hread.
  split; [| split].
  - intros ack Hdec Hnack. rewrite Hdec, Hnack. simpl. split.
    + intros f Hf. unfold reportError. rewrite Hf. simpl.
      split; [reflexivity | apply failed_mentions].
    + intros Hnil. unfold reportError. rewrite Hnil. reflexivity.
  - intros ack Hdec Hack. rewrite Hdec, Hack. reflexivity.
  - intros ack err Hdec. rewrite Hdec. reflexivity.
Qed.

(** C4. A tick at which the monitor is not alive leaves no trace: no
    GET is sent, no callback is started, and the loop goes on with
    the next input. *)
Theorem tick_skipped_when_not_alive
        (json_Unmarshal : string -> uptimeKumaPushResp * option error)
        (h : heartbeat) (now : time.Time) (reply : GetResult)
        (ins : list LoopInput) :
  okUnlocked h now = false ->
  heartbeatTick json_Unmarshal h now reply = []
  /\ requests (heartbeatTick json_Unmarshal h now reply) = []
  /\ callbacks (heartbeatTick json_Unmarshal h now reply) = []
  /\ heartbeatLoop json_Unmarshal h (Fires now reply :: ins)
     = heartbeatLoop json_Unmarshal h ins.
Proof.
  intros Hok.
  assert (Hskip : heartbeatTick json_Unmarshal h now reply = []).
  { unfold heartbeatTick. rewrite Hok. reflexivity. }
  simpl. rewrite Hskip. repeat split.
Qed.

(** C10. On a tick of a live monitor whose GET is answered with a
    2xx status but whose body cannot be read, the body is closed, no
    callback is started, and the loop goes on with the next input. *)
Theorem tick_unreadable_body
        (json_Unmarshal : string -> uptimeKumaPushResp * option error)
        (h : heartbeat) (now : time.Time) (resp : http_Response)
        (err : error) (ins : list LoopInput) :
  okUnlocked h now = true ->
  200 <= StatusCode resp <= 299 ->
  readErr (Body resp) = Some err ->
  heartbeatTick json_Unmarshal h now (inl resp)
  = [HttpGet (client h) (heartbeatURL h); BodyClose]
  /\ callbacks (heartbeatTick json_Unmarshal h now (inl resp)) = []
  /\ heartbeatLoop json_Unmarshal h (Fires now (inl resp) :: ins)
     = HttpGet (client h) (heartbeatURL h) :: BodyClose
         :: heartbeatLoop json_Unmarshal h ins.
Proof.
  intros Hok Hst Hread.
  assert (Htick : heartbeatTick json_Unmarshal h now (inl resp)
                  = [HttpGet (client h) (heartbeatURL h); BodyClose]).
  { rewrite (tick_2xx json_Unmarshal h now resp Hok Hst).
    unfold readAck, io_ReadAll. rewrite Hread. reflexivity. }
  simpl. rewrite Htick. repeat split.
Qed.

(** The example of the specification: a 200 with the body
    [{"ok":false,"msg":"bad"}] starts the callback once, with a text
    that contains [bad]. *)
Lemma tick_acknowledgement_witness :
  callbacks (heartbeatTick sampleUnmarshal liveMonitor (1010 * time.Second)
               (inl (reply200 {| content := body_bad; readErr := None |})))
  = [GoOnError (errorFunc 1) (failed sampleURL "bad")]
  /\ occursIn "bad" (Error (failed sampleURL "bad")).
Proof.
  destruct (tick_acknowledgement sampleUnmarshal liveMonitor
              (1010 * time.Second)
              (reply200 {| content := body_bad; readErr := None |}))
    as [Hnack _];
    [reflexivity | vm_compute; split; congruence | reflexivity |].
  destruct (Hnack {| OK := false; Msg := "bad" |}) as [Hcall _];
    [reflexivity | reflexivity |].
  apply (Hcall (errorFunc 1)). reflexivity.
Defined.

Example tick_ok_true :
  heartbeatTick sampleUnmarshal liveMonitor (1010 * time.Second)
    (inl (reply200 {| content := body_ok; readErr := None |}))
  = [HttpGet {| Timeout := 29 * time.Second |} sampleURL; BodyClose].
Proof. reflexivity. Qed.

Example tick_not_json :
  heartbeatTick sampleUnmarshal liveMonitor (1010 * time.Second)
    (inl (reply200 {| content := "OK"; readErr := None |}))
  = [HttpGet {| Timeout := 29 * time.Second |} sampleURL; BodyClose].
Proof. reflexivity. Qed.

Example tick_bad_status :
  heartbeatTick sampleUnmarshal liveMonitor (1010 * time.Second)
    (inl {| StatusCode := 404; Status := "404 Not Found";
            Body := {| content := body_ok; readErr := None |} |})
  = [HttpGet {| Timeout := 29 * time.Second |} sampleURL;
     GoOnError (errorFunc 1) (failed sampleURL "404 Not Found")].
Proof. reflexivity. Qed.

(** Sixty seconds after the report nothing is sent, whatever the
    target would have answered. *)
Lemma tick_skipped_when_not_alive_witness :
  heartbeatTick sampleUnmarshal liveMonitor (1060 * time.Second)
    (inl (reply200 {| content := body_bad; readErr := None |})) = []
  /\ heartbeatTick sampleUnmarshal sampleMonitor (1060 * time.Second)
       (inr (errors_New "connection refused")) = [].
Proof.
  split.
  - apply (tick_skipped_when_not_alive sampleUnmarshal liveMonitor
             (1060 * time.Second)
             (inl (reply200 {| content := body_bad; readErr := None |}))
             []).
    reflexivity.
  - apply (tick_skipped_when_not_alive sampleUnmarshal sampleMonitor
             (1060 * time.Second)
             (inr (errors_New "connection refused")) []).
    reflexivity.
Defined.

(** A body that breaks off while it is read, even one that would
    have been a negative acknowledgement, is closed in silence. *)
Lemma tick_unreadable_body_witness :
  heartbeatTick sampleUnmarshal liveMonitor (1010 * time.Second)
    (inl (reply200 {| content := body_bad;
                      readErr := Some (errors_New "unexpected EOF") |}))
  = [HttpGet {| Timeout := 29 * time.Second |} sampleURL; BodyClose].
Proof.
  apply (tick_unreadable_body sampleUnmarshal liveMonitor
           (1010 * time.Second)
           (reply200 {| content := body_bad;
                        readErr := Some (errors_New "unexpected EOF") |})
           (errors_New "unexpected EOF") []);
    [reflexivity | vm_compute; split; congruence | reflexivity].
Defined.

(** ** The health endpoint *)

Lemma healthHandler_spec (h : heartbeat) (now : time.Time)
      (r : http_Request) :
  (Method r <> MethodGet ->
   healthHandler h now newWriter r
   = {| code := 405; body := "Method Not Allowed" ++ newline |})
  /\ (Method r = MethodGet ->
      okUnlocked h now = true ->
      healthHandler h now newWriter r = {| code := 200; body := body_ok |})
  /\ (Method r = MethodGet ->
      okUnlocked h now = false ->
      healthHandler h now newWriter r
      = {| code := 503; body := body_not_ok |}).
Proof.
  unfold healthHandler.
  split; [| split].
  - intros Hm.
    assert (Hneq : (Method r =? MethodGet)%string = false)
      by (apply String.eqb_neq; exact Hm).
    rewrite Hneq. reflexivity.
  - intros Hm Hok. rewrite Hm, String.eqb_refl, Hok. reflexivity.
  - intros Hm Hok. rewrite Hm, String.eqb_refl, Hok. reflexivity.
Qed.

(** C5, as the code has it. For every request that the mux hands to
    the handler, whatever its path: a request whose method is not GET
    is answered with 405, and with the same response whatever the
    monitor's state and the clock are; a GET is answered with 200 and
    [{"ok":true}] when the monitor is alive and with 503 and
    [{"ok":false}] when it is not. Which requests the mux hands over
    is the decision [route] of net/http. *)
Theorem health_endpoint (route : http_Request -> Routing) (h : heartbeat)
        (now : time.Time) (r : http_Request) :
  route r = ToHandler ->
  (Method r <> MethodGet ->
   serveHTTP route h now r
   = Handled {| code := 405; body := "Method Not Allowed" ++ newline |}
   /\ forall h' now', serveHTTP route h' now' r = serveHTTP route h now r)
  /\ (Method r = MethodGet ->
      okUnlocked h now = true ->
      serveHTTP route h now r = Handled {| code := 200; body := body_ok |})
  /\ (Method r = MethodGet ->
      okUnlocked h now = false ->
      serveHTTP route h now r
      = Handled {| code := 503; body := body_not_ok |}).
Proof.
  intros Hroute. unfold serveHTTP. rewrite Hroute.
  destruct (healthHandler_spec h now r) as [Hother [Hup Hdown]].
  split; [| split].
  - intros Hm. split.
    + rewrite (Hother Hm). reflexivity.
    + intros h' now'.
      destruct (healthHandler_spec h' now' r) as [Hother' _].
      rewrite (Hother Hm), (Hother' Hm). reflexivity.
  - intros Hm Hok. rewrite (Hup Hm Hok). reflexivity.
  - intros Hm Hok. rewrite (Hdown Hm Hok). reflexivity.
Qed.

(** A POST is refused; a GET on [/healthz] follows the liveness of
    the monitor. *)
Lemma health_endpoint_witness :
  serveHTTP sampleRoute liveMonitor (1010 * time.Second)
    {| Method := "POST"; Path := "/" |}
  = Handled {| code := 405; body := "Method Not Allowed" ++ newline |}
  /\ serveHTTP sampleRoute liveMonitor (1010 * time.Second)
       {| Method := "GET"; Path := "/healthz" |}
     = Handled {| code := 200; body := body_ok |}
  /\ serveHTTP sampleRoute liveMonitor (1060 * time.Second)
       {| Method := "GET"; Path := "/healthz" |}
     = Handled {| code := 503; body := body_not_ok |}.
Proof.
  split; [| split].
  - destruct (health_endpoint sampleRoute liveMonitor (1010 * time.Second)
                {| Method := "POST"; Path := "/" |}) as [Hother _];
      [reflexivity |].
    apply Hother. vm_compute. congruence.
  - destruct (health_endpoint sampleRoute liveMonitor (1010 * time.Second)
                {| Method := "GET"; Path := "/healthz" |}) as [_ [Hup _]];
      [reflexivity |].
    apply Hup; reflexivity.
  - destruct (health_endpoint sampleRoute liveMonitor (1060 * time.Second)
                {| Method := "GET"; Path := "/healthz" |})
      as [_ [_ Hdown]]; [reflexivity |].
    apply Hdown; reflexivity.
Defined.

(** C5 as the specification words it (a GET on any path gets 200 or
    503) fails for a path that is not in canonical form: the mux
    answers a GET of [//healthz] with a redirect to [/healthz] and
    the handler is not run, alive monitor or not. *)
Lemma health_endpoint_counterexample :
  okUnlocked liveMonitor (1010 * time.Second) = true
  /\ serveHTTP sampleRoute liveMonitor (1010 * time.Second)
       {| Method := "GET"; Path := "//healthz" |}
     = Redirected "/healthz"
  /\ serveHTTP sampleRoute liveMonitor (1010 * time.Second)
       {| Method := "GET"; Path := "//healthz" |}
     <> Handled {| code := 200; body := body_ok |}.
Proof.
  split; [reflexivity |]. split; [reflexivity |]. discriminate.
Qed.

(** ** Start *)

Lemma Start_started (h : heartbeat) :
  started h = true -> Start h = (h, []).
Proof.
  intros Hs. unfold Start. rewrite Hs. reflexivity.
Qed.

(** [Start] leaves the last report and the threshold alone: only
    [Alive] moves the liveness window. *)
Lemma Start_keeps_report (h : heartbeat) :
  lastAlive (fst (Start h)) = lastAlive h
  /\ livenessThreshold (fst (Start h)) = livenessThreshold h.
Proof.
  unfold Start. destruct (started h); split; reflexivity.
Qed.

Lemma startTimes_started (n : nat) (h : heartbeat) :
  started h = true -> startTimes n h = (h, []).
Proof.
  intros Hs. induction n as [| n IH]; simpl.
  - reflexivity.
  - rewrite (Start_started h Hs), IH. reflexivity.
Qed.

Lemma NewHeartbeat_unstarted (cfg : Config) (h : heartbeat) :
  NewHeartbeat cfg = inl h -> started h = false.
Proof.
  unfold NewHeartbeat.
  repeat match goal with
         | |- (if ?c then _ else _) = _ -> _ =>
             destruct c; [discriminate |]
         end.
  intros Hnew. injection Hnew as <-. reflexivity.
Qed.

(** C9. The first [Start] of a monitor sets [started] and launches
    the push loop if a URL is configured and the listener if a port
    is; a [Start] of a started monitor changes nothing and launches
    nothing. So two calls, or any number of calls, launch what the
    first one does: one push loop for a monitor with a URL, and at
    most one listener. *)
Theorem Start_idempotent (h : heartbeat) :
  (started h = true -> Start h = (h, []))
  /\ (started h = false ->
      started (fst (Start h)) = true
      /\ Start (fst (Start h)) = (fst (Start h), [])
      /\ pushLoops (snd (Start h))
         = (if (heartbeatURL h =? EmptyString)%string then [] else [GoHeartbeatLoop])
      /\ listeners (snd (Start h))
         = (if serverPort h =? 0 then [] else [GoHttpServer (serverPort h)])
      /\ (forall n, startTimes (S n) h = Start h)
      /\ (heartbeatURL h <> EmptyString ->
          List.length (pushLoops (snd (startTimes 2 h))) = 1%nat)
      /\ (List.length (listeners (snd (startTimes 2 h))) <= 1)%nat).
Proof.
  split; [apply Start_started |].
  intros Hs.
  assert (HS : Start h
               = (set_started h true,
                  (startHeartbeatLocked (set_started h true)
                     ++ startHttpServerLocked (set_started h true))%list)).
  { unfold Start. rewrite Hs. reflexivity. }
  assert (Hn : forall n, startTimes (S n) h = Start h).
  { intros n. simpl. rewrite HS.
    rewrite startTimes_started by reflexivity.
    rewrite app_nil_r. reflexivity. }
  assert (Hp : pushLoops (snd (Start h))
               = (if (heartbeatURL h =? EmptyString)%string
                  then [] else [GoHeartbeatLoop])).
  { rewrite HS. unfold startHeartbeatLocked, startHttpServerLocked. simpl.
    destruct (heartbeatURL h =? EmptyString)%string;
      destruct (serverPort h =? 0); reflexivity. }
  assert (Hl : listeners (snd (Start h))
               = (if serverPort h =? 0
                  then [] else [GoHttpServer (serverPort h)])).
  { rewrite HS. unfold startHeartbeatLocked, startHttpServerLocked. simpl.
    destruct (heartbeatURL h =? EmptyString)%string;
      destruct (serverPort h =? 0); reflexivity. }
  repeat split.
  - rewrite HS. reflexivity.
  - rewrite HS. reflexivity.
  - exact Hp.
  - exact Hl.
  - exact Hn.
  - intros Hurl. rewrite Hn, Hp.
    destruct (String.eqb_spec (heartbeatURL h) EmptyString); [contradiction |].
    reflexivity.
  - rewrite Hn, Hl. destruct (serverPort h =? 0); simpl; lia.
Qed.

(** Two calls of [Start] on the sample monitor, which has both a URL
    and a port: one ticker with its loop, one listener. *)
Lemma Start_idempotent_witness :
  startTimes 2 sampleMonitor
  = (set_started sampleMonitor true,
     [NewTicker (30 * time.Second); GoHeartbeatLoop; GoHttpServer 8080])
  /\ List.length (pushLoops (snd (startTimes 2 sampleMonitor))) = 1%nat.
Proof.
  destruct (Start_idempotent sampleMonitor) as [_ Hfirst].
  destruct Hfirst as [_ [_ [_ [_ [Hn [Hone _]]]]]]; [reflexivity |].
  split.
  - rewrite (Hn 1%nat). reflexivity.
  - apply Hone. vm_compute. congruence.
Defined.

(** * Further properties *)

(** ** Construction, all checks *)

Lemma NewHeartbeat_inl (cfg : Config) (h : heartbeat) :
  NewHeartbeat cfg = inl h ->
  0 < LivenessThreshold cfg
  /\ 0 < HeartbeatInterval cfg
  /\ (HTTPTimeout cfg = 0 \/ HTTPTimeout cfg < HeartbeatInterval cfg)
  /\ 0 <= Port cfg <= 65535
  /\ (HeartbeatURL cfg <> EmptyString \/ Port cfg <> 0)
  /\ h = {| heartbeatInterval := HeartbeatInterval cfg;
            livenessThreshold := LivenessThreshold cfg;
            heartbeatURL := HeartbeatURL cfg;
            lastAlive := time.zeroTime;
            client :=
              {| Timeout :=
                   if HTTPTimeout cfg =? 0
                   then if time.dsub (HeartbeatInterval cfg) time.Second
                           <? time.Second
                        then time.Second
                        else time.dsub (HeartbeatInterval cfg) time.Second
                   else HTTPTimeout cfg |};
            onError := OnError cfg;
            started := false;
            serverPort := Port cfg |}.
Proof.
  unfold NewHeartbeat.
  destruct (Z.leb_spec (LivenessThreshold cfg) 0); [discriminate |].
  destruct (Z.leb_spec (HeartbeatInterval cfg) 0); [discriminate |].
  destruct (Z.eqb_spec (HTTPTimeout cfg) 0);
    destruct (Z.leb_spec (HeartbeatInterval cfg) (HTTPTimeout cfg));
    simpl; try discriminate;
    (destruct (Z.ltb_spec (Port cfg) 0); [discriminate |];
     destruct (Z.ltb_spec 65535 (Port cfg)); [discriminate |];
     destruct (String.eqb_spec (HeartbeatURL cfg) EmptyString);
     destruct (Z.eqb_spec (Port cfg) 0); simpl; try discriminate;
     intros Hh; injection Hh as <-;
     repeat split; auto; lia).
Qed.

(** X1. [NewHeartbeat] returns a monitor exactly for the
    configurations with a positive threshold, a positive interval, a
    timeout that is unset or below the interval, a port in
    [0, 65535] and a URL or a port; the monitor carries the
    configured interval, threshold, URL, callback and port, has no
    report yet and is not started. *)
Theorem NewHeartbeat_accepts (cfg : Config) :
  ((exists h, NewHeartbeat cfg = inl h) <->
   (0 < LivenessThreshold cfg
    /\ 0 < HeartbeatInterval cfg
    /\ (HTTPTimeout cfg = 0 \/ HTTPTimeout cfg < HeartbeatInterval cfg)
    /\ 0 <= Port cfg <= 65535
    /\ (HeartbeatURL cfg <> EmptyString \/ Port cfg <> 0)))
  /\ (forall h, NewHeartbeat cfg = inl h ->
        heartbeatInterval h = HeartbeatInterval cfg
        /\ livenessThreshold h = LivenessThreshold cfg
        /\ heartbeatURL h = HeartbeatURL cfg
        /\ onError h = OnError cfg
        /\ serverPort h = Port cfg
        /\ lastAlive h = time.zeroTime
        /\ started h = false).
Proof.
  split; [split |].
  - intros [h Hh]. apply NewHeartbeat_inl in Hh. tauto.
  - intros [HL [HI [HT [HP HU]]]]. unfold NewHeartbeat.
    destruct (Z.leb_spec (LivenessThreshold cfg) 0); [lia |].
    destruct (Z.leb_spec (HeartbeatInterval cfg) 0); [lia |].
    assert (Ht : negb (HTTPTimeout cfg =? 0)
                 && (HeartbeatInterval cfg <=? HTTPTimeout cfg) = false).
    { destruct (Z.eqb_spec (HTTPTimeout cfg) 0); [reflexivity |].
      destruct (Z.leb_spec (HeartbeatInterval cfg) (HTTPTimeout cfg));
        [lia | reflexivity]. }
    rewrite Ht.
    destruct (Z.ltb_spec (Port cfg) 0); [lia |].
    destruct (Z.ltb_spec 65535 (Port cfg)); [lia |].
    assert (Hu : ((HeartbeatURL cfg =? EmptyString)%string
                  && (Port cfg =? 0)) = false).
    { destruct (String.eqb_spec (HeartbeatURL cfg) EmptyString);
        [| reflexivity].
      destruct (Z.eqb_spec (Port cfg) 0); [| reflexivity].
      destruct HU; contradiction. }
    simpl. rewrite Hu. eexists. reflexivity.
  - intros h Hh. apply NewHeartbeat_inl in Hh.
    destruct Hh as [_ [_ [_ [_ [_ ->]]]]]. simpl. repeat split.
Qed.

(** A monitor with a port only, no push target. *)
Lemma NewHeartbeat_accepts_witness :
  exists h, NewHeartbeat explicitConfig = inl h.
Proof.
  destruct (NewHeartbeat_accepts explicitConfig) as [[_ Hvalid] _].
  apply Hvalid. unfold explicitConfig, time.Second. simpl.
  repeat split; try lia; right; lia.
Defined.

(** X2. The checks are made in a fixed order and the first one that
    fails gives the error: threshold, interval, timeout, port range,
    and last the presence of a URL or a port. *)
Theorem NewHeartbeat_first_error (cfg : Config) :
  (LivenessThreshold cfg <= 0 ->
   NewHeartbeat cfg = inr (errors_New "liveness threshold must be positive"))
  /\ (0 < LivenessThreshold cfg ->
      (HeartbeatInterval cfg <= 0 ->
       NewHeartbeat cfg
       = inr (errors_New "heartbeat interval must be positive"))
      /\ (0 < HeartbeatInterval cfg ->
          (HTTPTimeout cfg <> 0 ->
           HeartbeatInterval cfg <= HTTPTimeout cfg ->
           NewHeartbeat cfg
           = inr (errors_New
                    "timeout must be less than heartbeat interval"))
          /\ (HTTPTimeout cfg = 0
              \/ HTTPTimeout cfg < HeartbeatInterval cfg ->
              (Port cfg < 0 \/ 65535 < Port cfg ->
               NewHeartbeat cfg
               = inr (errors_New "port must be in the range [0, 65535]"))
              /\ (HeartbeatURL cfg = EmptyString -> Port cfg = 0 ->
                  NewHeartbeat cfg
                  = inr (errors_New "heartbeat URL must be set"))))).
Proof.
  unfold NewHeartbeat.
  destruct (Z.leb_spec (LivenessThreshold cfg) 0);
    (split; [intros; try reflexivity; lia | intros; try lia]).
  destruct (Z.leb_spec (HeartbeatInterval cfg) 0);
    (split; [intros; try reflexivity; lia | intros; try lia]).
  destruct (Z.eqb_spec (HTTPTimeout cfg) 0);
    destruct (Z.leb_spec (HeartbeatInterval cfg) (HTTPTimeout cfg));
    simpl;
    (split; [intros; try reflexivity; try contradiction; lia
            | intros Hok; try lia]).
  all: split.
  all: try (intros Hp;
            destruct (Z.ltb_spec (Port cfg) 0);
            destruct (Z.ltb_spec 65535 (Port cfg)); simpl;
            try reflexivity; lia).
  all: intros Hu Hp0; rewrite Hu, Hp0; reflexivity.
Qed.

(** A port of 70000 in an otherwise valid configuration. *)
Lemma NewHeartbeat_first_error_witness :
  NewHeartbeat farPortConfig
  = inr (errors_New "port must be in the range [0, 65535]").
Proof.
  destruct (NewHeartbeat_first_error farPortConfig) as [_ Hrest].
  destruct Hrest as [_ Hrest]; [reflexivity |].
  destruct Hrest as [_ Hrest]; [reflexivity |].
  destruct Hrest as [Hport _]; [left; reflexivity |].
  apply Hport. right. reflexivity.
Defined.

(** X3. The client of a constructed monitor never has the timeout 0
    (which would mean no limit). A timeout left unset becomes at
    least one second, and stays below the interval only when the
    interval is above one second: for shorter intervals the default
    is longer than the interval, which a configured timeout may not
    be. A configured timeout is kept as it is, also when negative. *)
Theorem NewHeartbeat_timeout_bounds (cfg : Config) (h : heartbeat) :
  time.is_int64 (HeartbeatInterval cfg) ->
  NewHeartbeat cfg = inl h ->
  Timeout (client h) <> 0
  /\ (HTTPTimeout cfg = 0 ->
      time.Second <= Timeout (client h)
      /\ (Timeout (client h) < HeartbeatInterval cfg
          <-> time.Second < HeartbeatInterval cfg))
  /\ (HTTPTimeout cfg <> 0 ->
      Timeout (client h) = HTTPTimeout cfg
      /\ Timeout (client h) < HeartbeatInterval cfg).
Proof.
  intros Hr Hnew. apply NewHeartbeat_inl in Hnew.
  destruct Hnew as [_ [HI [HT [_ [_ ->]]]]]. simpl.
  destruct (Z.eqb_spec (HTTPTimeout cfg) 0) as [H0 | H0].
  - unfold time.dsub. rewrite wrap64_small by (int64_bounds; lia).
    destruct (Z.ltb_spec (HeartbeatInterval cfg - time.Second) time.Second);
      unfold time.Second in *; repeat split; intros; lia.
  - repeat split; intros; lia.
Qed.

(** With an interval of half a second the default timeout is a whole
    second. *)
Lemma NewHeartbeat_timeout_bounds_witness :
  NewHeartbeat quickConfig = inl quickMonitor
  /\ time.Second <= Timeout (client quickMonitor)
  /\ ~ Timeout (client quickMonitor) < HeartbeatInterval quickConfig.
Proof.
  destruct (NewHeartbeat_timeout_bounds quickConfig quickMonitor)
    as [_ [Hdef _]];
    [vm_compute; split; congruence | reflexivity |].
  destruct Hdef as [Hge Hiff]; [reflexivity |].
  split; [reflexivity |]. split; [exact Hge |].
  intros Hlt. apply Hiff in Hlt. vm_compute in Hlt. discriminate.
Defined.

(** ** Liveness over time *)

Lemma Sub_mono (t t' u u' : time.Time) :
  t <= t' -> u' <= u -> time.Sub t u <= time.Sub t' u'.
Proof.
  intros Ht Hu. unfold time.Sub.
  destruct (Z.ltb_spec (t - u) time.minDuration);
    destruct (Z.ltb_spec time.maxDuration (t - u));
    destruct (Z.ltb_spec (t' - u') time.minDuration);
    destruct (Z.ltb_spec time.maxDuration (t' - u'));
    int64_bounds; lia.
Qed.

Lemma Start_okUnlocked (h : heartbeat) (now : time.Time) :
  okUnlocked (fst (Start h)) now = okUnlocked h now.
Proof.
  unfold Start. destruct (started h); reflexivity.
Qed.

(** X4. A report can only help: a report dated at the clock reading
    makes the monitor alive at that reading, whatever it held
    before, and no report makes an alive monitor not alive. *)
Theorem report_revives (h : heartbeat) (now at_ : time.Time) :
  0 < livenessThreshold h ->
  okUnlocked (Alive h now) now = true
  /\ (okUnlocked h now = true -> okUnlocked (Alive h at_) now = true).
Proof.
  intros HD.
  assert (Hthr : forall t, livenessThreshold (Alive h t) = livenessThreshold h).
  { intros t. unfold Alive. destruct (time.Before (lastAlive h) t);
      reflexivity. }
  split.
  - unfold okUnlocked, time.Since. rewrite Hthr, Alive_lastAlive.
    apply Z.ltb_lt.
    assert (Hs : time.Sub now (Z.max (lastAlive h) now) <= time.Sub now now)
      by (apply Sub_mono; lia).
    assert (H0 : time.Sub now now = 0).
    { unfold time.Sub. rewrite Z.sub_diag. reflexivity. }
    lia.
  - unfold okUnlocked, time.Since. rewrite Hthr, Alive_lastAlive.
    rewrite !Z.ltb_lt. intros Hok.
    assert (Hs : time.Sub now (Z.max (lastAlive h) at_)
                 <= time.Sub now (lastAlive h))
      by (apply Sub_mono; lia).
    lia.
Qed.

(** A monitor that never had a report is alive right after one. *)
Lemma report_revives_witness :
  okUnlocked (Alive sampleMonitor (1000 * time.Second))
             (1000 * time.Second) = true.
Proof.
  destruct (report_revives sampleMonitor (1000 * time.Second) 0)
    as [Hnow _]; [reflexivity | exact Hnow].
Defined.

Lemma okUnlocked_expired (h : heartbeat) (now now' : time.Time) :
  okUnlocked h now = false -> now <= now' -> okUnlocked h now' = false.
Proof.
  unfold okUnlocked, time.Since. rewrite !Z.ltb_ge. intros Hex Hle.
  assert (Hs : time.Sub now (lastAlive h) <= time.Sub now' (lastAlive h))
    by (apply Sub_mono; lia).
  lia.
Qed.

(** X5. Once the monitor is found not alive it stays so while no
    report comes in: every later tick of the loop is skipped, so the
    loop sends nothing and starts no callback, and the handler of the
    health endpoint answers every later GET it is given with 503. *)
Theorem expired_stays_silent
        (json_Unmarshal : string -> uptimeKumaPushResp * option error)
        (h : heartbeat) (now0 : time.Time) (ins : list LoopInput) :
  okUnlocked h now0 = false ->
  Forall (firesFrom now0) ins ->
  heartbeatLoop json_Unmarshal h ins = []
  /\ (forall now r, now0 <= now -> Method r = MethodGet ->
        healthHandler h now newWriter r
        = {| code := StatusServiceUnavailable; body := body_not_ok |}).
Proof.
  intros Hex Hins. split.
  - induction Hins as [| i ins Hi _ IH]; [reflexivity |].
    destruct i as [now reply | at_]; [| destruct Hi].
    simpl in Hi. simpl. rewrite IH.
    unfold heartbeatTick.
    rewrite (okUnlocked_expired h now0 now Hex Hi). reflexivity.
  - intros now r Hle Hget. unfold healthHandler.
    rewrite Hget, String.eqb_refl.
    rewrite (okUnlocked_expired h now0 now Hex Hle). reflexivity.
Qed.

(** The report of second 1000 has expired at second 1060; two later
    ticks, one of which would have met a failing target. *)
Lemma expired_stays_silent_witness :
  heartbeatLoop sampleUnmarshal liveMonitor
    [Fires (1060 * time.Second)
           (inl (reply200 {| content := body_bad; readErr := None |}));
     Fires (1090 * time.Second) (inr (errors_New "connection refused"))]
  = [].
Proof.
  destruct (expired_stays_silent sampleUnmarshal liveMonitor
              (1060 * time.Second)
              [Fires (1060 * time.Second)
                 (inl (reply200 {| content := body_bad; readErr := None |}));
               Fires (1090 * time.Second)
                 (inr (errors_New "connection refused"))])
    as [Hloop _].
  - reflexivity.
  - repeat constructor; simpl; unfold time.Second; lia.
  - exact Hloop.
Defined.

(** X6. A monitor that was constructed and started but never got a
    report does nothing to the outside once the clock is a threshold
    past the zero Time: its loop sends no GET and starts no callback,
    and the handler of the health endpoint answers every GET it is
    given with 503. *)
Theorem unreported_monitor_silent
        (json_Unmarshal : string -> uptimeKumaPushResp * option error)
        (cfg : Config) (h : heartbeat) (ins : list LoopInput) :
  time.is_int64 (LivenessThreshold cfg) ->
  NewHeartbeat cfg = inl h ->
  Forall (firesFrom (LivenessThreshold cfg)) ins ->
  heartbeatLoop json_Unmarshal (fst (Start h)) ins = []
  /\ (forall now r, LivenessThreshold cfg <= now -> Method r = MethodGet ->
        healthHandler (fst (Start h)) now newWriter r
        = {| code := StatusServiceUnavailable; body := body_not_ok |}).
Proof.
  intros Hr Hnew Hins.
  assert (Hex : okUnlocked (fst (Start h)) (LivenessThreshold cfg) = false).
  { rewrite Start_okUnlocked.
    destruct (fresh_not_alive cfg h (LivenessThreshold cfg) Hr Hnew)
      as [_ [_ Hout]].
    apply Hout.
    apply NewHeartbeat_inl in Hnew.
    destruct Hnew as [_ [_ [_ [_ [_ ->]]]]]. simpl. lia. }
  split.
  - induction Hins as [| i ins Hi _ IH]; [reflexivity |].
    destruct i as [now reply | at_]; [| destruct Hi].
    simpl in Hi. simpl. rewrite IH.
    unfold heartbeatTick.
    rewrite (okUnlocked_expired _ _ now Hex Hi). reflexivity.
  - intros now r Hle Hget. unfold healthHandler.
    rewrite Hget, String.eqb_refl.
    rewrite (okUnlocked_expired _ _ now Hex Hle). reflexivity.
Qed.

(** The sample monitor, started, at two ticks some 2025 years past
    the zero Time. *)
Lemma unreported_monitor_silent_witness :
  heartbeatLoop sampleUnmarshal (fst (Start sampleMonitor))
    [Fires 63900000000000000000
           (inl (reply200 {| content := body_ok; readErr := None |}));
     Fires 63900000030000000000
           (inl (reply200 {| content := body_ok; readErr := None |}))]
  = [].
Proof.
  destruct (unreported_monitor_silent sampleUnmarshal sampleConfig
              sampleMonitor
              [Fires 63900000000000000000
                 (inl (reply200 {| content := body_ok; readErr := None |}));
               Fires 63900000030000000000
                 (inl (reply200 {| content := body_ok; readErr := None |}))])
    as [Hloop _].
  - vm_compute. split; congruence.
  - reflexivity.
  - repeat constructor; simpl; unfold time.Second; lia.
  - exact Hloop.
Defined.

(** ** The push tick, all outcomes *)

Lemma failed_startsWith (url detail : string) :
  startsWith (failedPrefix url) (Error (failed url detail)).
Proof.
  exists detail. unfold failed, failedPrefix, Error.
  rewrite !append_assoc. reflexivity.
Qed.

Lemma failed_mentions_url (url detail : string) :
  occursIn url (Error (failed url detail)).
Proof.
  exists "heartbeat to '", ("' failed: " ++ detail). reflexivity.
Qed.

(** X7. When the GET of a tick fails in transport, the tick ends
    there: nothing is read or closed, and the callback, if the
    monitor has one, is started exactly once with an error that
    names the URL and carries the text of the transport error. *)
Theorem tick_transport_error
        (json_Unmarshal : string -> uptimeKumaPushResp * option error)
        (h : heartbeat) (now : time.Time) (err : error) :
  okUnlocked h now = true ->
  heartbeatTick json_Unmarshal h now (inr err)
  = HttpGet (client h) (heartbeatURL h)
      :: reportError h (failed (heartbeatURL h) (Error err))
  /\ (forall f, onError h = Some f ->
        callbacks (heartbeatTick json_Unmarshal h now (inr err))
        = [GoOnError f (failed (heartbeatURL h) (Error err))])
  /\ occursIn (Error err) (Error (failed (heartbeatURL h) (Error err)))
  /\ occursIn (heartbeatURL h) (Error (failed (heartbeatURL h) (Error err)))
  /\ ~ In BodyClose (heartbeatTick json_Unmarshal h now (inr err)).
Proof.
  intros Hok.
  assert (Ht : heartbeatTick json_Unmarshal h now (inr err)
               = HttpGet (client h) (heartbeatURL h)
                   :: reportError h (failed (heartbeatURL h) (Error err))).
  { unfold heartbeatTick. rewrite Hok. reflexivity. }
  rewrite Ht. unfold reportError.
  split; [reflexivity |]. split; [| split; [| split]].
  - intros f Hf. rewrite Hf. reflexivity.
  - apply failed_mentions.
  - apply failed_mentions_url.
  - destruct (onError h); simpl; intros [H | H];
      try discriminate; try destruct H; try discriminate; auto.
Qed.

Lemma tick_transport_error_witness :
  heartbeatTick sampleUnmarshal liveMonitor (1010 * time.Second)
    (inr (errors_New "connection refused"))
  = [HttpGet {| Timeout := 29 * time.Second |} sampleURL;
     GoOnError (errorFunc 1) (failed sampleURL "connection refused")].
Proof.
  destruct (tick_transport_error sampleUnmarshal liveMonitor
              (1010 * time.Second) (errors_New "connection refused"))
    as [Htick _]; [reflexivity | exact Htick].
Defined.

(** X8. When the GET of a tick is answered with a status outside
    200..299, the callback, if there is one, is started exactly once
    with the status text; the body of the response is neither read
    nor closed, and what it holds and how it would decode make no
    difference. *)
Theorem tick_bad_status_unread
        (json_Unmarshal json_Unmarshal' :
           string -> uptimeKumaPushResp * option error)
        (h : heartbeat) (now : time.Time) (resp : http_Response)
        (b' : ReadCloser) :
  okUnlocked h now = true ->
  StatusCode resp < 200 \/ 299 < StatusCode resp ->
  heartbeatTick json_Unmarshal h now (inl resp)
  = HttpGet (client h) (heartbeatURL h)
      :: reportError h (failed (heartbeatURL h) (Status resp))
  /\ (forall f, onError h = Some f ->
        callbacks (heartbeatTick json_Unmarshal h now (inl resp))
        = [GoOnError f (failed (heartbeatURL h) (Status resp))])
  /\ ~ In BodyClose (heartbeatTick json_Unmarshal h now (inl resp))
  /\ heartbeatTick json_Unmarshal' h now
       (inl {| StatusCode := StatusCode resp; Status := Status resp;
               Body := b' |})
     = heartbeatTick json_Unmarshal h now (inl resp).
Proof.
  intros Hok Hst.
  assert (Hbad : (StatusCode resp <? 200) || (299 <? StatusCode resp) = true).
  { apply orb_true_iff. rewrite !Z.ltb_lt. exact Hst. }
  assert (Ht : forall j r, StatusCode r = StatusCode resp ->
               Status r = Status resp ->
               heartbeatTick j h now (inl r)
               = HttpGet (client h) (heartbeatURL h)
                   :: reportError h (failed (heartbeatURL h) (Status resp))).
  { intros j r Hc Hs. unfold heartbeatTick.
    rewrite Hok, Hc, Hs, Hbad. reflexivity. }
  rewrite (Ht json_Unmarshal resp eq_refl eq_refl).
  rewrite (Ht json_Unmarshal'
             {| StatusCode := StatusCode resp; Status := Status resp;
                Body := b' |} eq_refl eq_refl).
  unfold reportError.
  split; [reflexivity |]. split; [| split; [| reflexivity]].
  - intros f Hf. rewrite Hf. reflexivity.
  - destruct (onError h); simpl; intros [H | H];
      try discriminate; try destruct H; try discriminate; auto.
Qed.

(** A 404 whose body is a negative acknowledgement: the status text
    is reported, the body is left alone. *)
Lemma tick_bad_status_unread_witness :
  heartbeatTick sampleUnmarshal liveMonitor (1010 * time.Second)
    (inl reply404)
  = [HttpGet {| Timeout := 29 * time.Second |} sampleURL;
     GoOnError (errorFunc 1) (failed sampleURL "404 Not Found")].
Proof.
  destruct (tick_bad_status_unread sampleUnmarshal sampleUnmarshal
              liveMonitor (1010 * time.Second) reply404 (Body reply404))
    as [Htick _];
    [reflexivity | right; reflexivity | exact Htick].
Defined.

(** Splits a tick into its outcomes. *)
Ltac tick_cases h now reply j :=
  unfold heartbeatTick, readAck, io_ReadAll, reportError;
  set (failedAt := failed (heartbeatURL h)) in *; clearbody failedAt;
  destruct (okUnlocked h now); simpl;
  [ destruct reply as [resp | err]; simpl;
    [ destruct (Z.ltb_spec (StatusCode resp) 200);
      destruct (Z.ltb_spec 299 (StatusCode resp)); simpl;
      [ | | |
        destruct (readErr (Body resp)) as [rerr |]; simpl;
        [ | destruct (j (content (Body resp))) as [ack [derr |]] eqn:Hdec;
            simpl; [ | destruct (OK ack) eqn:Hack; simpl ] ] ]
    | ]
  | ];
  destruct (onError h) as [f |] eqn:Hcb; simpl.

(** X9. Whatever the clock and the reply, a tick sends at most one
    GET, and sends one exactly when the monitor is alive; it starts
    at most one callback, never one without having sent the GET and
    never one on a monitor without a callback. The GET goes to the
    URL of the monitor through its client; a started callback is the
    monitor's, with an error that begins with
    [heartbeat to '<url>' failed: ]. *)
Theorem tick_shape
        (json_Unmarshal : string -> uptimeKumaPushResp * option error)
        (h : heartbeat) (now : time.Time) (reply : GetResult) :
  let tr := heartbeatTick json_Unmarshal h now reply in
  (List.length (requests tr) <= 1)%nat
  /\ (requests tr <> [] <-> okUnlocked h now = true)
  /\ (List.length (callbacks tr) <= 1)%nat
  /\ (callbacks tr <> [] -> requests tr <> [])
  /\ (onError h = None -> callbacks tr = [])
  /\ Forall (ownRequest h) tr
  /\ Forall (wellFormedCallback h) tr.
Proof.
  pose proof (failed_startsWith (heartbeatURL h)) as Hpre.
  cbv zeta.
  tick_cases h now reply json_Unmarshal.
  all: repeat split; simpl; try lia; try congruence; try discriminate;
    repeat constructor; simpl; auto; try congruence; try discriminate.
Qed.

(** X10. A tick starts the callback exactly when the monitor is
    alive, has a callback, and the reply is a transport error, a
    status outside 200..299, or a readable body that decodes to an
    acknowledgement with [OK] false. *)
Theorem tick_callback_iff
        (json_Unmarshal : string -> uptimeKumaPushResp * option error)
        (h : heartbeat) (now : time.Time) (reply : GetResult) :
  callbacks (heartbeatTick json_Unmarshal h now reply) <> []
  <-> (okUnlocked h now = true
       /\ onError h <> None
       /\ rejected json_Unmarshal reply).
Proof.
  unfold rejected.
  tick_cases h now reply json_Unmarshal.
  all: split;
    [ intros Hcall; try (exfalso; apply Hcall; reflexivity);
      repeat split; try congruence; auto
    | intros [Hok [Hcb' Hrej]]; try discriminate; try congruence ].
  all: try (left; lia).
  all: try solve [right; split; [reflexivity |]; exists ack; split;
                  [reflexivity | exact Hack]].
  all: try solve [destruct Hrej as [[Hst | Hst] | [Hr [ack' [Hd Ha]]]];
                  [lia | lia
                  | try discriminate; injection Hd as <-; congruence]].
Qed.

(** A tick on a monitor without callback: the negative
    acknowledgement is read and dropped. *)
Lemma tick_shape_witness :
  callbacks (heartbeatTick sampleUnmarshal
               (Alive quickMonitor (1000 * time.Second))
               (1010 * time.Second)
               (inl (reply200 {| content := body_bad; readErr := None |})))
  = [].
Proof.
  destruct (tick_shape sampleUnmarshal
              (Alive quickMonitor (1000 * time.Second))
              (1010 * time.Second)
              (inl (reply200 {| content := body_bad; readErr := None |})))
    as [_ [_ [_ [_ [Hnone _]]]]].
  apply Hnone. reflexivity.
Defined.

(** The negative acknowledgement of the examples is reported. *)
Lemma tick_callback_iff_witness :
  callbacks (heartbeatTick sampleUnmarshal liveMonitor (1010 * time.Second)
               (inl (reply200 {| content := body_bad; readErr := None |})))
  <> [].
Proof.
  apply (tick_callback_iff sampleUnmarshal liveMonitor (1010 * time.Second)
           (inl (reply200 {| content := body_bad; readErr := None |}))).
  split; [reflexivity |]. split; [discriminate |].
  right. split; [reflexivity |].
  exists {| OK := false; Msg := "bad" |}. split; reflexivity.
Defined.

(** ** The loop as a whole *)

Lemma requests_app (tr1 tr2 : list Event) :
  requests (tr1 ++ tr2)%list = (requests tr1 ++ requests tr2)%list.
Proof. apply filter_app. Qed.

Lemma callbacks_app (tr1 tr2 : list Event) :
  callbacks (tr1 ++ tr2)%list = (callbacks tr1 ++ callbacks tr2)%list.
Proof. apply filter_app. Qed.

Lemma tick_counts
      (json_Unmarshal : string -> uptimeKumaPushResp * option error)
      (h : heartbeat) (now : time.Time) (reply : GetResult) :
  (List.length (callbacks (heartbeatTick json_Unmarshal h now reply))
   <= List.length (requests (heartbeatTick json_Unmarshal h now reply))
   <= 1)%nat.
Proof.
  tick_cases h now reply json_Unmarshal; simpl; lia.
Qed.

(** X11. The loop handles its inputs one after the other: the trace
    over two stretches of inputs is the trace over the first,
    followed by the trace over the second from the monitor as the
    reports of the first have left it. Over any inputs it sends at
    most one GET per tick and starts at most one callback per GET. *)
Theorem heartbeatLoop_sequential
        (json_Unmarshal : string -> uptimeKumaPushResp * option error)
        (h : heartbeat) (ins1 ins2 : list LoopInput) :
  heartbeatLoop json_Unmarshal h (ins1 ++ ins2)
  = (heartbeatLoop json_Unmarshal h ins1
       ++ heartbeatLoop json_Unmarshal (loopState h ins1) ins2)%list
  /\ (List.length (callbacks (heartbeatLoop json_Unmarshal h ins1))
      <= List.length (requests (heartbeatLoop json_Unmarshal h ins1))
      <= ticks ins1)%nat.
Proof.
  split.
  - revert h. induction ins1 as [| i ins1 IH]; intros h; simpl.
    + reflexivity.
    + destruct i as [now reply | at_].
      * rewrite IH, app_assoc. reflexivity.
      * apply IH.
  - revert h. induction ins1 as [| i ins1 IH]; intros h; simpl.
    + lia.
    + destruct i as [now reply | at_].
      * rewrite requests_app, callbacks_app, !length_app.
        pose proof (tick_counts json_Unmarshal h now reply).
        specialize (IH h). lia.
      * apply IH.
Qed.

(** ** The handler and the loop together *)

(** X12. The handler of the health endpoint and the push loop judge
    alike: at one clock reading the handler answers a GET it is
    given with 200 exactly when a tick would send the push, and with
    503 exactly when the tick would be skipped. *)
Theorem endpoint_agrees_with_push
        (json_Unmarshal : string -> uptimeKumaPushResp * option error)
        (h : heartbeat) (now : time.Time) (r : http_Request)
        (reply : GetResult) :
  Method r = MethodGet ->
  (code (healthHandler h now newWriter r) = StatusOK
   <-> requests (heartbeatTick json_Unmarshal h now reply) <> [])
  /\ (code (healthHandler h now newWriter r) = StatusServiceUnavailable
      <-> heartbeatTick json_Unmarshal h now reply = []).
Proof.
  intros Hget. unfold healthHandler, heartbeatTick.
  rewrite Hget, String.eqb_refl.
  destruct (okUnlocked h now); simpl.
  - split; split; intros H; try discriminate; try reflexivity.
  - split; split; intros H; try discriminate; try reflexivity.
    exfalso. apply H. reflexivity.
Qed.

Lemma endpoint_agrees_with_push_witness :
  code (healthHandler liveMonitor (1010 * time.Second) newWriter
          {| Method := "GET"; Path := "/" |}) = StatusOK.
Proof.
  destruct (endpoint_agrees_with_push sampleUnmarshal liveMonitor
              (1010 * time.Second) {| Method := "GET"; Path := "/" |}
              (inr (errors_New "connection refused")))
    as [[_ Hsends] _]; [reflexivity |].
  apply Hsends. discriminate.
Defined.

(** ** The handler, all requests *)

(** X13. The handler, on any request it is given, has three answers
    and no other: 200 with the body for alive, 503 with the body for
    not alive, and 405 with the line [Method Not Allowed]. It answers
    200 exactly to a GET on an alive monitor, and it does not look
    at the path: two requests with the same method get the same
    answer from it. *)
Theorem health_responses (h : heartbeat) (now : time.Time)
        (r r' : http_Request) :
  (healthHandler h now newWriter r = {| code := 200; body := body_ok |}
   \/ healthHandler h now newWriter r
      = {| code := 503; body := body_not_ok |}
   \/ healthHandler h now newWriter r
      = {| code := 405; body := "Method Not Allowed" ++ newline |})
  /\ (code (healthHandler h now newWriter r) = 200
      <-> Method r = MethodGet /\ okUnlocked h now = true)
  /\ (Method r = Method r' ->
      healthHandler h now newWriter r = healthHandler h now newWriter r').
Proof.
  unfold healthHandler.
  split; [| split].
  - destruct (Method r =? MethodGet)%string; simpl;
      [destruct (okUnlocked h now) |]; auto.
  - destruct (String.eqb_spec (Method r) MethodGet) as [Hm | Hm]; simpl.
    + destruct (okUnlocked h now); simpl; split; intros H;
        try discriminate; try (destruct H; discriminate); auto.
    + split; [intros H; discriminate | intros [H _]; contradiction].
  - intros Hm. rewrite Hm. reflexivity.
Qed.

(** The method is compared as written: a lower-case [get] is not a
    GET for the handler, whatever the path. *)
Lemma health_responses_witness :
  healthHandler liveMonitor (1010 * time.Second) newWriter
    {| Method := "get"; Path := "/healthz" |}
  = healthHandler liveMonitor (1010 * time.Second) newWriter
      {| Method := "get"; Path := "/" |}
  /\ code (healthHandler liveMonitor (1010 * time.Second) newWriter
             {| Method := "get"; Path := "/" |}) = 405.
Proof.
  destruct (health_responses liveMonitor (1010 * time.Second)
              {| Method := "get"; Path := "/healthz" |}
              {| Method := "get"; Path := "/" |}) as [_ [_ Hpath]].
  split; [apply Hpath; reflexivity | reflexivity].
Defined.

(** ** Start and the reports *)

Lemma Start_Alive (h : heartbeat) (t : time.Time) :
  fst (Start (Alive h t)) = Alive (fst (Start h)) t
  /\ snd (Start (Alive h t)) = snd (Start h).
Proof.
  unfold Start, Alive.
  destruct (time.Before (lastAlive h) t) eqn:HB;
    destruct (started h) eqn:Hs; simpl; rewrite ?Hs, ?HB; simpl;
    rewrite ?HB; split; reflexivity.
Qed.

(** X14. Reports and start-up do not depend on each other's order: a
    report before [Start] leaves the same monitor as the same report
    after it, and [Start] launches the same in both cases. *)
Theorem Start_Alive_commute (h : heartbeat) (ts : list time.Time) :
  Start (reportAll h ts) = (reportAll (fst (Start h)) ts, snd (Start h)).
Proof.
  revert h. induction ts as [| t ts IH]; intros h.
  - simpl. destruct (Start h); reflexivity.
  - change (reportAll h (t :: ts)) with (reportAll (Alive h t) ts).
    change (reportAll (fst (Start h)) (t :: ts))
      with (reportAll (Alive (fst (Start h)) t) ts).
    rewrite IH. destruct (Start_Alive h t) as [-> ->]. reflexivity.
Qed.

(** X15. [Start] on a monitor that [NewHeartbeat] returned always
    launches something, the loop or the listener; the ticker it
    creates has the configured interval, which is positive, and the
    listener gets the configured port, which lies in 1..65535. *)
Theorem Start_constructed (cfg : Config) (h : heartbeat) :
  NewHeartbeat cfg = inl h ->
  snd (Start h) <> []
  /\ (forall d, In (NewTicker d) (snd (Start h)) ->
        d = HeartbeatInterval cfg /\ 0 < d)
  /\ (forall p, In (GoHttpServer p) (snd (Start h)) ->
        p = Port cfg /\ 1 <= p <= 65535)
  /\ (HeartbeatURL cfg <> EmptyString ->
        In GoHeartbeatLoop (snd (Start h)))
  /\ (Port cfg <> 0 -> In (GoHttpServer (Port cfg)) (snd (Start h))).
Proof.
  intros Hnew. apply NewHeartbeat_inl in Hnew.
  destruct Hnew as [_ [HI [_ [HP [HU ->]]]]].
  unfold Start, startHeartbeatLocked, startHttpServerLocked. simpl.
  destruct (String.eqb_spec (HeartbeatURL cfg) EmptyString) as [Hu | Hu];
    destruct (Z.eqb_spec (Port cfg) 0) as [Hp | Hp]; simpl.
  - destruct HU; contradiction.
  - repeat split; try discriminate; try contradiction; auto.
    + destruct H as [H | []]. discriminate.
    + destruct H as [H | []]. discriminate.
    + destruct H as [H | []]. injection H as <-. reflexivity.
    + destruct H as [H | []]. injection H as <-. lia.
    + destruct H as [H | []]. injection H as <-. lia.
  - repeat split; try discriminate; try contradiction; auto.
    + destruct H as [H | [H | []]]; try discriminate.
      injection H as <-. reflexivity.
    + destruct H as [H | [H | []]]; try discriminate.
      injection H as <-. lia.
    + destruct H as [H | [H | []]]; discriminate.
    + destruct H as [H | [H | []]]; discriminate.
    + destruct H as [H | [H | []]]; discriminate.
  - repeat split; try discriminate; try contradiction; auto.
    + destruct H as [H | [H | [H | []]]]; try discriminate.
      injection H as <-. reflexivity.
    + destruct H as [H | [H | [H | []]]]; try discriminate.
      injection H as <-. lia.
    + destruct H as [H | [H | [H | []]]]; try discriminate.
      injection H as <-. reflexivity.
    + destruct H as [H | [H | [H | []]]]; try discriminate.
      injection H as <-. lia.
    + destruct H as [H | [H | [H | []]]]; try discriminate.
      injection H as <-. lia.
Qed.

Lemma Start_constructed_witness :
  snd (Start sampleMonitor)
  = [NewTicker (30 * time.Second); GoHeartbeatLoop; GoHttpServer 8080]
  /\ In (GoHttpServer 8080) (snd (Start sampleMonitor)).
Proof.
  destruct (Start_constructed sampleConfig sampleMonitor)
    as [_ [_ [_ [_ Hport]]]]; [reflexivity |].
  split; [reflexivity |]. apply Hport. vm_compute. congruence.
Defined.

(** ** The second revision *)

Lemma V2_NewHeartbeat_inl (g g' : http_Client) (cfg : V2.Config)
      (h : V2.heartbeat) :
  V2.NewHeartbeat g cfg = (inl h, g') ->
  0 < V2.LivenessThreshold cfg
  /\ 0 < V2.HeartbeatInterval cfg
  /\ V2.HeartbeatURL cfg <> EmptyString
  /\ g' = {| Timeout := Z.min (V2.HeartbeatInterval cfg)
                              V2.maxHeartbeatTimeout |}
  /\ h = {| V2.heartbeatInterval := V2.HeartbeatInterval cfg;
            V2.livenessThreshold := V2.LivenessThreshold cfg;
            V2.heartbeatURL := V2.HeartbeatURL cfg;
            V2.lastAlive := time.zeroTime;
            V2.client := V2.DefaultClientPtr;
            V2.onError := V2.OnError cfg;
            V2.started := false |}.
Proof.
  unfold V2.NewHeartbeat.
  destruct (Z.leb_spec (V2.LivenessThreshold cfg) 0); [discriminate |].
  destruct (Z.leb_spec (V2.HeartbeatInterval cfg) 0); [discriminate |].
  destruct (String.eqb_spec (V2.HeartbeatURL cfg) EmptyString);
    [discriminate |].
  intros Hh. injection Hh as <- <-.
  repeat split; auto.
  f_equal.
  destruct (Z.ltb_spec (V2.HeartbeatInterval cfg) V2.maxHeartbeatTimeout);
    lia.
Qed.

(** X16. In the second revision [NewHeartbeat] sets the timeout on
    the one default client of the process, and every monitor sends
    through that client. So a monitor does not keep the timeout it
    was constructed with: after a second construction both monitors
    send with the timeout computed from the second configuration. A
    refused configuration leaves the default client as it was. *)
Theorem V2_shared_default_client
        (g g1 g2 : http_Client) (cfg1 cfg2 : V2.Config)
        (h1 h2 : V2.heartbeat) :
  V2.NewHeartbeat g cfg1 = (inl h1, g1) ->
  V2.NewHeartbeat g1 cfg2 = (inl h2, g2) ->
  Timeout (V2.deref g1 (V2.client h1))
  = Z.min (V2.HeartbeatInterval cfg1) V2.maxHeartbeatTimeout
  /\ Timeout (V2.deref g2 (V2.client h1))
     = Z.min (V2.HeartbeatInterval cfg2) V2.maxHeartbeatTimeout
  /\ V2.deref g2 (V2.client h2) = V2.deref g2 (V2.client h1)
  /\ (forall cfg e g', V2.NewHeartbeat g2 cfg = (inr e, g') -> g' = g2).
Proof.
  intros H1 H2.
  apply V2_NewHeartbeat_inl in H1. apply V2_NewHeartbeat_inl in H2.
  destruct H1 as [_ [_ [_ [-> ->]]]]. destruct H2 as [_ [_ [_ [-> ->]]]].
  simpl. repeat split.
  intros cfg e g'. unfold V2.NewHeartbeat.
  repeat match goal with
         | |- (if ?c then _ else _) = _ -> _ => destruct c
         end; intros H; try discriminate; injection H as _ <-; reflexivity.
Qed.

(** A monitor that pushes every five seconds, then one that pushes
    every thirty: the first now waits fifteen seconds for an
    answer. *)
Lemma V2_shared_default_client_witness :
  Timeout (V2.deref {| Timeout := 15 * time.Second |}
             (V2.client (v2Monitor v2Fast time.zeroTime)))
  = 15 * time.Second.
Proof.
  destruct (V2_shared_default_client untouchedClient
              {| Timeout := 5 * time.Second |}
              {| Timeout := 15 * time.Second |}
              v2Fast v2Slow
              (v2Monitor v2Fast time.zeroTime)
              (v2Monitor v2Slow time.zeroTime))
    as [_ [Hlater _]]; [reflexivity | reflexivity |].
  rewrite Hlater. reflexivity.
Defined.

(** X17. On a monitor with a callback the loop of the second
    revision does at every tick what the loop of the current
    revision does with the same settings. *)
Theorem V2_tick_with_callback
        (json_Unmarshal : string -> uptimeKumaPushResp * option error)
        (g : http_Client) (h : V2.heartbeat) (now : time.Time)
        (reply : GetResult) :
  V2.onError h <> None ->
  V2.runTick json_Unmarshal g h now reply
  = V2.Ran (heartbeatTick json_Unmarshal (ofV2 g h) now reply).
Proof.
  intros Hcb.
  unfold V2.runTick, heartbeatTick, readAck, io_ReadAll, reportError,
    okUnlocked, ofV2. simpl.
  destruct (V2.onError h) as [f |]; [| contradiction].
  destruct (time.Since now (V2.lastAlive h) <? V2.livenessThreshold h);
    simpl; [| reflexivity].
  destruct reply as [resp | err]; simpl; [| reflexivity].
  destruct ((StatusCode resp <? 200) || (299 <? StatusCode resp)); simpl;
    [reflexivity |].
  destruct (readErr (Body resp)); simpl; [reflexivity |].
  destruct (json_Unmarshal (content (Body resp))) as [ack [derr |]];
    simpl; [reflexivity |].
  destruct (OK ack); reflexivity.
Qed.

Lemma V2_tick_with_callback_witness :
  V2.runTick sampleUnmarshal {| Timeout := 15 * time.Second |}
    (v2Monitor v2Slow (1000 * time.Second)) (1010 * time.Second)
    (inl reply404)
  = V2.Ran [HttpGet {| Timeout := 15 * time.Second |} sampleURL;
            GoOnError (errorFunc 1) (failed sampleURL "404 Not Found")].
Proof.
  rewrite (V2_tick_with_callback sampleUnmarshal
             {| Timeout := 15 * time.Second |}
             (v2Monitor v2Slow (1000 * time.Second)) (1010 * time.Second)
             (inl reply404)); [reflexivity | discriminate].
Defined.

(** X18. On a monitor without callback the loop of the second
    revision does not leave the iteration after a failed GET. After a
    transport error it goes on to the body of the response it did not
    get, which ends the iteration, and the process, in a nil
    dereference; after a status outside 200..299 it reads and closes
    the body and reports nothing. The current revision ends the tick
    after the GET in both cases. *)
Theorem V2_tick_without_callback
        (json_Unmarshal : string -> uptimeKumaPushResp * option error)
        (g : http_Client) (h : V2.heartbeat) (now : time.Time) :
  V2.onError h = None ->
  okUnlocked (ofV2 g h) now = true ->
  (forall err,
      V2.runTick json_Unmarshal g h now (inr err)
      = V2.Panicked [HttpGet g (V2.heartbeatURL h)]
      /\ heartbeatTick json_Unmarshal (ofV2 g h) now (inr err)
         = [HttpGet g (V2.heartbeatURL h)])
  /\ (forall resp,
        StatusCode resp < 200 \/ 299 < StatusCode resp ->
        V2.runTick json_Unmarshal g h now (inl resp)
        = V2.Ran [HttpGet g (V2.heartbeatURL h); BodyClose]
        /\ heartbeatTick json_Unmarshal (ofV2 g h) now (inl resp)
           = [HttpGet g (V2.heartbeatURL h)]).
Proof.
  intros Hcb Hok.
  unfold V2.runTick, heartbeatTick, readAck, io_ReadAll, reportError.
  rewrite Hok. unfold okUnlocked in Hok. simpl in Hok. rewrite Hok.
  unfold ofV2. simpl. rewrite Hcb.
  destruct (V2.client h). simpl.
  split.
  - intros err. split; reflexivity.
  - intros resp Hst.
    assert (Hbad : (StatusCode resp <? 200) || (299 <? StatusCode resp)
                   = true).
    { apply orb_true_iff. rewrite !Z.ltb_lt. exact Hst. }
    rewrite Hbad.
    destruct (readErr (Body resp)); simpl; [split; reflexivity |].
    destruct (json_Unmarshal (content (Body resp))) as [ack [derr |]];
      simpl; [split; reflexivity |].
    destruct (OK ack); split; reflexivity.
Qed.

Lemma V2_tick_without_callback_witness :
  V2.runTick sampleUnmarshal {| Timeout := 5 * time.Second |}
    (v2Monitor v2Fast (1000 * time.Second)) (1010 * time.Second)
    (inr (errors_New "connection refused"))
  = V2.Panicked [HttpGet {| Timeout := 5 * time.Second |} sampleURL].
Proof.
  destruct (V2_tick_without_callback sampleUnmarshal
              {| Timeout := 5 * time.Second |}
              (v2Monitor v2Fast (1000 * time.Second))
              (1010 * time.Second)) as [Herr _];
    [reflexivity | reflexivity |].
  destruct (Herr (errors_New "connection refused")) as [Hpanic _].
  exact Hpanic.
Defined.

(** ** The first revision *)

(** X19. In the first revision [NewHeartbeat] returns a monitor
    exactly for a positive threshold, a positive interval and a
    non-empty URL, and the client timeout is the interval capped at
    fifteen seconds: positive, never above the interval and never
    above fifteen seconds. *)
Theorem V1_NewHeartbeat_capped (cfg : V1.Config) :
  ((exists h, V1.NewHeartbeat cfg = inl h) <->
   (0 < V1.LivenessThreshold cfg
    /\ 0 < V1.HeartbeatInterval cfg
    /\ V1.HeartbeatURL cfg <> EmptyString))
  /\ (forall h, V1.NewHeartbeat cfg = inl h ->
        Timeout (V1.client h)
        = Z.min (V1.HeartbeatInterval cfg) (15 * time.Second)
        /\ 0 < Timeout (V1.client h) <= V1.HeartbeatInterval cfg
        /\ Timeout (V1.client h) <= 15 * time.Second
        /\ V1.lastAlive h = time.zeroTime
        /\ V1.started h = false).
Proof.
  unfold V1.NewHeartbeat, V1.maxHeartbeatTimeout.
  destruct (Z.leb_spec (V1.LivenessThreshold cfg) 0).
  { split; [split |]; [intros [h Hh]; discriminate | lia | discriminate]. }
  destruct (Z.leb_spec (V1.HeartbeatInterval cfg) 0).
  { split; [split |]; [intros [h Hh]; discriminate | lia | discriminate]. }
  destruct (String.eqb_spec (V1.HeartbeatURL cfg) EmptyString).
  { split; [split |];
      [intros [h Hh]; discriminate | intros [_ [_ Hu]]; contradiction
      | discriminate]. }
  split; [split |].
  - intros _. auto.
  - intros _. eexists. reflexivity.
  - intros h Hh. injection Hh as <-.
    unfold time.Second in *.
    change (15 * 1000000000) with 15000000000 in *. simpl.
    destruct (Z.ltb_spec (V1.HeartbeatInterval cfg) 15000000000);
      simpl; repeat split; lia.
Qed.

Lemma V1_NewHeartbeat_capped_witness :
  exists h, V1.NewHeartbeat v1Config = inl h.
Proof.
  destruct (V1_NewHeartbeat_capped v1Config) as [[_ Hvalid] _].
  apply Hvalid. unfold v1Config, time.Second. simpl.
  repeat split; try lia. discriminate.
Defined.

(** X20. The loop of the first revision judges a push by the status
    alone. A reply with a status in 200..299 ends the tick after the
    GET whatever the body holds, so a negative acknowledgement goes
    unnoticed; no reply makes it read or close a body. A transport
    error or another status starts the callback, if there is one,
    once, with a text of the form
    [failed to send heartbeat to '<url>': <detail>]. *)
Theorem V1_tick_status_only (h : V1.heartbeat) (now : time.Time) :
  (time.Since now (V1.lastAlive h) <? V1.livenessThreshold h) = true ->
  (forall resp, 200 <= StatusCode resp <= 299 ->
     V1.runTick h now (inl resp)
     = [HttpGet (V1.client h) (V1.heartbeatURL h)])
  /\ (forall reply, ~ In BodyClose (V1.runTick h now reply))
  /\ (forall f, V1.onError h = Some f ->
        (forall err,
            V1.runTick h now (inr err)
            = [HttpGet (V1.client h) (V1.heartbeatURL h);
               GoOnError f
                 (V1.failedToSend (V1.heartbeatURL h) (Error err))])
        /\ (forall resp,
              StatusCode resp < 200 \/ 299 < StatusCode resp ->
              V1.runTick h now (inl resp)
              = [HttpGet (V1.client h) (V1.heartbeatURL h);
                 GoOnError f
                   (V1.failedToSend (V1.heartbeatURL h) (Status resp))])).
Proof.
  intros Hok. unfold V1.runTick. rewrite Hok.
  split; [| split].
  - intros resp Hst.
    destruct (Z.ltb_spec (StatusCode resp) 200); [lia |].
    destruct (Z.ltb_spec 299 (StatusCode resp)); [lia |].
    reflexivity.
  - intros reply.
    destruct reply as [resp | err];
      [destruct ((StatusCode resp <? 200) || (299 <? StatusCode resp)) |];
      destruct (V1.onError h); simpl; intros H;
      repeat (destruct H as [H | H]; try discriminate); auto.
  - intros f Hf. rewrite Hf. split.
    + intros err. reflexivity.
    + intros resp Hst.
      assert (Hbad : (StatusCode resp <? 200) || (299 <? StatusCode resp)
                     = true).
      { apply orb_true_iff. rewrite !Z.ltb_lt. exact Hst. }
      rewrite Hbad. reflexivity.
Qed.

(** A 200 with the negative acknowledgement of the examples: the
    first revision sends and is content. *)
Lemma V1_tick_status_only_witness :
  V1.runTick v1Monitor (1010 * time.Second)
    (inl (reply200 {| content := body_bad; readErr := None |}))
  = [HttpGet {| Timeout := 15 * time.Second |} sampleURL].
Proof.
  destruct (V1_tick_status_only v1Monitor (1010 * time.Second))
    as [H2xx _]; [reflexivity |].
  apply H2xx. vm_compute. split; congruence.
Defined.

(** ** The listener goroutine *)

(** When [ListenAndServe] returns, the callback is started only for
    an error other than [ErrServerClosed], and gets that error as it
    is. *)
Lemma serverExit_reports (isServerClosed : error -> bool)
      (h : heartbeat) (err : error) :
  (isServerClosed err = true -> serverExit isServerClosed h (Some err) = [])
  /\ (isServerClosed err = false ->
      serverExit isServerClosed h (Some err) = reportError h err).
Proof.
  unfold serverExit. split; intros ->; reflexivity.
Qed.

(** ** Edge values of the timeout *)

(** A negative timeout passes the checks and is handed to the
    client. *)
Example NewHeartbeat_negative_timeout :
  NewHeartbeat {| HeartbeatInterval := 30 * time.Second;
                  LivenessThreshold := 60 * time.Second;
                  HeartbeatURL := sampleURL;
                  HTTPTimeout := - 5 * time.Second;
                  Port := 0;
                  OnError := None |}
  = inl {| heartbeatInterval := 30 * time.Second;
           livenessThreshold := 60 * time.Second;
           heartbeatURL := sampleURL;
           lastAlive := time.zeroTime;
           client := {| Timeout := - 5 * time.Second |};
           onError := None;
           started := false;
           serverPort := 0 |}.
Proof. reflexivity. Qed.
